(** * Draw-App ML backend: a shallow embedding of [ai_services.py] and of the
  handwriting endpoint of [main.py], with the properties of the
  heuristic pipeline proved over it.

  Layout: the Python substrate ([Py]), the OpenCV interface ([Cv2]),
  one module per service class of [ai_services.py], the HTTP handler
  ([Main]), and then the theorems. *)

From Stdlib Require Import ZArith QArith Qround String Ascii Floats.
From stdpp Require Import gmap strings list pretty.

Set Warnings "-inexact-float,-register-all".
Set Default Proof Using "Type".

Open Scope Z_scope.

(* ================================================================== *)
(** * Python substrate *)
(* ================================================================== *)

Module Py.

(** Exceptions derived from [Exception].  [Error] stands for any class
    the model does not single out (e.g. [cv2.error]); [BaseException]s
    that are not [Exception]s (interrupts) are outside the model. *)
Inductive exn :=
| KeyError (key : string)
| IndexError (msg : string)
| ValueError (msg : string)
| TypeError (msg : string)
| ZeroDivisionError (msg : string)
| Error (msg : string).

(** [str(e)]: a [KeyError] prints the [repr] of its key. *)
Definition str_exn (e : exn) : string :=
  match e with
  | KeyError k => "'" +:+ k +:+ "'"
  | IndexError m | ValueError m | TypeError m
  | ZeroDivisionError m | Error m => m
  end.

(** The outcome of evaluating a Python expression or block. *)
Inductive res (A : Type) :=
| Ok (a : A)
| Raise (e : exn).
Arguments Ok {A} a.
Arguments Raise {A} e.

#[export] Instance res_ret : MRet res := λ A a, Ok a.
#[export] Instance res_bind : MBind res := λ A B k m,
  match m with Ok a => k a | Raise e => Raise e end.

(** [try: body  except Exception as e: handler(e)] *)
Definition try_except {A} (body : res A) (handler : exn → res A) : res A :=
  match body with Ok a => Ok a | Raise e => handler e end.

(** A [for] loop threading the loop-carried variables [s]; an exception
    in the body leaves the loop. *)
Fixpoint for_in {A S} (l : list A) (body : S → A → res S) (s : S) : res S :=
  match l with
  | [] => Ok s
  | a :: l' => s' ← body s a; for_in l' body s'
  end.

(** Python values that cross the JSON boundary or sit in result
    dictionaries. *)
Inductive value :=
| VNone
| VBool (b : bool)
| VInt (z : Z)
| VFloat (f : float)
| VStr (s : string)
| VList (l : list value)
| VDict (d : gmap string value).

(** A [dict] with string keys. *)
Abbreviation dict := (gmap string value).

(** [d[k]] *)
Definition getitem (d : dict) (k : string) : res value :=
  match d !! k with
  | Some v => Ok v
  | None => Raise (KeyError k)
  end.

(** [d.get(k, dflt)] *)
Definition get (d : dict) (k : string) (dflt : value) : value :=
  default dflt (d !! k).

(** [v[i]] for a literal index [i >= 0]. *)
Definition index (v : value) (i : nat) : res value :=
  match v with
  | VList l =>
      match l !! i with
      | Some x => Ok x
      | None => Raise (IndexError "list index out of range")
      end
  | VStr s =>
      match String.get i s with
      | Some c => Ok (VStr (String c EmptyString))
      | None => Raise (IndexError "string index out of range")
      end
  | VDict _ => Raise (KeyError (pretty (Z.of_nat i)))
  | _ => Raise (TypeError "object is not subscriptable")
  end.

(** [a, b, c, d = v].  Unpacking a [dict] (which would yield its keys
    in insertion order) is not modelled and reported as a [TypeError]. *)
Definition unpack4 (v : value) : res (value * value * value * value) :=
  match v with
  | VList [a; b; c; d] => Ok (a, b, c, d)
  | VList _ => Raise (ValueError "wrong number of values to unpack")
  | VStr (String a (String b (String c (String d EmptyString)))) =>
      let ch x := VStr (String x EmptyString) in
      Ok (ch a, ch b, ch c, ch d)
  | VStr _ => Raise (ValueError "wrong number of values to unpack")
  | _ => Raise (TypeError "cannot unpack non-iterable object")
  end.

(** Integer coordinates handed to a drawing routine. *)
Definition as_int (v : value) : res Z :=
  match v with
  | VInt z => Ok z
  | _ => Raise (TypeError "an integer is required")
  end.

(** [v == s] for a string literal [s]. *)
Definition eq_str (v : value) (s : string) : bool :=
  match v with
  | VStr t => String.eqb t s
  | _ => false
  end.

(** [float(z)] for machine-sized integers: exact below 2^53. *)
Definition float_of_Z (z : Z) : float :=
  if z <? 0 then PrimFloat.opp (PrimFloat.of_uint63 (Uint63.of_Z (- z)))
  else PrimFloat.of_uint63 (Uint63.of_Z z).

(** [x / n] for a float [x] and an integer [n]: true division, raising
    on a zero divisor. *)
Definition truediv (x : float) (n : Z) : res float :=
  if n =? 0 then Raise (ZeroDivisionError "float division by zero")
  else Ok (x / float_of_Z n)%float.

(** [s.lower()] on ASCII text; bytes outside [A-Z] are kept. *)
Definition lower_ascii (c : ascii) : ascii :=
  let n := nat_of_ascii c in
  if (65 <=? n)%nat && (n <=? 90)%nat then ascii_of_nat (n + 32) else c.

Fixpoint lower (s : string) : string :=
  match s with
  | EmptyString => EmptyString
  | String c s' => String (lower_ascii c) (lower s')
  end.

(** [needle in hay] on strings. *)
Fixpoint contains (needle hay : string) : bool :=
  String.prefix needle hay ||
  match hay with
  | EmptyString => false
  | String _ hay' => contains needle hay'
  end.

(** [sep.join(l)] *)
Fixpoint join (sep : string) (l : list string) : string :=
  match l with
  | [] => ""
  | [s] => s
  | s :: l' => s +:+ sep +:+ join sep l'
  end.

(** [max(l, key=key)] on a non-empty list given as head and tail: the
    first element with the largest key wins. *)
Fixpoint max_by {A} (key : A → Z) (best : A) (l : list A) : A :=
  match l with
  | [] => best
  | a :: l' => max_by key (if key best <? key a then a else best) l'
  end.

(** [max(l)] on a non-empty list of integers. *)
Definition max_int (x : Z) (l : list Z) : Z := foldl Z.max x l.

(** [min(a, b)] on floats: [b] only when it is strictly smaller. *)
Definition min_float (a b : float) : float :=
  if (b <? a)%float then b else a.

(** [a // b] and [a % b] on integers ([Z.div] and [Z.modulo] floor
    like Python's), raising on a zero divisor. *)
Definition floordiv (a b : Z) : res Z :=
  if b =? 0 then Raise (ZeroDivisionError "integer division or modulo by zero")
  else Ok (a / b).
Definition pymod (a b : Z) : res Z :=
  if b =? 0 then Raise (ZeroDivisionError "integer division or modulo by zero")
  else Ok (a mod b).

(** [enumerate(l)], counting from [start]. *)
Fixpoint enumerate_from {A} (start : Z) (l : list A) : list (Z * A) :=
  match l with
  | [] => []
  | a :: l' => (start, a) :: enumerate_from (start + 1) l'
  end.
Definition enumerate {A} (l : list A) : list (Z * A) := enumerate_from 0 l.

(** A [dict] whose iteration order matters: the items in insertion
    order, keys pairwise distinct. *)
Definition odict (V : Type) : Type := list (string * V).

Fixpoint odict_get {V} (d : odict V) (k : string) : option V :=
  match d with
  | [] => None
  | (k', v) :: d' => if String.eqb k' k then Some v else odict_get d' k
  end.

(** [d[k] = v]: overwrite in place, or append a new key. *)
Fixpoint odict_set {V} (d : odict V) (k : string) (v : V) : odict V :=
  match d with
  | [] => [(k, v)]
  | (k', v') :: d' =>
      if String.eqb k' k then (k', v) :: d' else (k', v') :: odict_set d' k v
  end.

(** The truth value of an object, as [if v:] and [not v] test it. *)
Definition truthy (v : value) : bool :=
  match v with
  | VNone => false
  | VBool b => b
  | VInt z => negb (z =? 0)
  | VFloat f => negb (f =? 0)%float
  | VStr s => negb (String.eqb s "")
  | VList l => match l with [] => false | _ :: _ => true end
  | VDict d => negb (Nat.eqb (size d) 0)
  end.

(** [type(v).__name__] *)
Definition type_name (v : value) : string :=
  match v with
  | VNone => "NoneType"
  | VBool _ => "bool"
  | VInt _ => "int"
  | VFloat _ => "float"
  | VStr _ => "str"
  | VList _ => "list"
  | VDict _ => "dict"
  end.

(** [len(v)] *)
Definition len (v : value) : res Z :=
  match v with
  | VStr s => Ok (Z.of_nat (String.length s))
  | VList l => Ok (Z.of_nat (length l))
  | VDict d => Ok (Z.of_nat (size d))
  | _ => Raise (TypeError ("object of type '" +:+ type_name v +:+ "' has no len()"))
  end.

(** The items a [for] loop draws from [v]: the entries of a list, the
    characters of a string, the keys of a dictionary (whose order the
    map does not record). *)
Definition iterate (v : value) : res (list value) :=
  match v with
  | VList l => Ok l
  | VStr s => Ok ((λ c, VStr (String c EmptyString)) <$> list_ascii_of_string s)
  | VDict d => Ok (VStr <$> (map_to_list d).*1)
  | _ => Raise (TypeError ("'" +:+ type_name v +:+ "' object is not iterable"))
  end.

(** The dictionary behind [v] when [v[key]] is evaluated for a string
    key: other objects refuse the subscript. *)
Definition as_dict (v : value) : res dict :=
  match v with
  | VDict d => Ok d
  | VList _ => Raise (TypeError "list indices must be integers or slices, not str")
  | VStr _ => Raise (TypeError "string indices must be integers")
  | _ => Raise (TypeError ("'" +:+ type_name v +:+ "' object is not subscriptable"))
  end.

(** [f"{v}"] for the objects the handlers format: strings, integers,
    booleans and [None].  The [repr] of floats and containers is not
    modelled and shows as a placeholder. *)
Definition format_value (v : value) : string :=
  match v with
  | VStr s => s
  | VInt z => pretty z
  | VBool true => "True"
  | VBool false => "False"
  | VNone => "None"
  | _ => "<object>"
  end.

End Py.
Export Py.

(* ================================================================== *)
(** * NumPy arrays and the OpenCV interface *)
(* ================================================================== *)

Module Cv2.

(** An [np.ndarray] of [uint8]: its [shape] and its row-major buffer. *)
Record ndarray := mk_ndarray { shape : list nat; buffer : list Z }.

(** [a.copy()] on array contents: the copy holds the same pixels. *)
Definition copy (a : ndarray) : ndarray := a.

(** [np.ones(shape, np.uint8)] for a two-dimensional shape. *)
Definition ones (sh : nat * nat) : ndarray :=
  {| shape := [sh.1; sh.2]; buffer := replicate (sh.1 * sh.2) 1 |}.

Definition point : Type := Z * Z.
(** A contour or polygon: an [N x 1 x 2] integer array, [len] = [N]. *)
Definition contour : Type := list point.
Definition color : Type := Z * Z * Z.
Definition rect : Type := Z * Z * Z * Z.

Inductive color_code := COLOR_RGB2GRAY | COLOR_BGR2RGB | COLOR_GRAY2RGB.
Inductive morph_op := MORPH_CLOSE | MORPH_OPEN.
Inductive retrieval_mode := RETR_EXTERNAL.
Inductive approx_method := CHAIN_APPROX_SIMPLE.
Inductive threshold_type := THRESH_BINARY.
Inductive adaptive_method := ADAPTIVE_THRESH_GAUSSIAN_C.

(** The OpenCV entry points the services call.  They belong to a
    third-party library and are taken as an interface; each may raise.
    The three drawing routines write into the array they are given:
    their result is the new content of that same array. *)
Class OpenCV := {
  cvtColor : ndarray → color_code → res ndarray;
  GaussianBlur : ndarray → Z * Z → Z → res ndarray;
  Canny : ndarray → Z → Z → res ndarray;
  findContours : ndarray → retrieval_mode → approx_method → res (list contour);
  arcLength : contour → bool → res float;
  approxPolyDP : contour → float → bool → res contour;
  boundingRect : contour → res rect;
  contourArea : contour → res float;
  HoughLines : ndarray → Z → float → Z → res (option (list (float * float)));
  threshold : ndarray → Z → Z → threshold_type → res (float * ndarray);
  adaptiveThreshold :
    ndarray → Z → adaptive_method → threshold_type → Z → Z → res ndarray;
  fastNlMeansDenoising : ndarray → res ndarray;
  morphologyEx : ndarray → morph_op → ndarray → res ndarray;
  rectangle : ndarray → point → point → color → Z → res ndarray;
  circle : ndarray → point → Z → color → Z → res ndarray;
  polylines : ndarray → list contour → bool → color → Z → res ndarray;
}.

End Cv2.
Export Cv2.

(* ================================================================== *)
(** * Arrays as heap objects *)
(* ================================================================== *)

(** [clean_shapes] draws into an array in place, so for it arrays live
    in a store and are named by their location. *)
Module Heap.

Definition loc : Type := positive.
Abbreviation heap := (gmap loc ndarray).

(** Stateful computations that may raise; the store survives a raise. *)
Definition M (A : Type) : Type := heap → res A * heap.

Definition ret {A} (a : A) : M A := λ σ, (Ok a, σ).
Definition bind {A B} (m : M A) (k : A → M B) : M B := λ σ,
  match m σ with
  | (Ok a, σ') => k a σ'
  | (Raise e, σ') => (Raise e, σ')
  end.
Definition lift {A} (r : res A) : M A := λ σ, (r, σ).

(** [a.copy()]: a new object with the same content. *)
Definition copy (l : loc) : M loc := λ σ,
  match σ !! l with
  | Some a => let l' := fresh (dom σ) in (Ok l', <[l' := a]> σ)
  | None => (Raise (Error "dangling reference"), σ)
  end.

(** An in-place update of the object at [l] by a drawing routine. *)
Definition update (l : loc) (f : ndarray → res ndarray) : M () := λ σ,
  match σ !! l with
  | Some a =>
      match f a with
      | Ok a' => (Ok (), <[l := a']> σ)
      | Raise e => (Raise e, σ)
      end
  | None => (Raise (Error "dangling reference"), σ)
  end.

(** A [for] loop whose body only acts on the store. *)
Fixpoint for_each {A} (l : list A) (body : A → M ()) : M () :=
  match l with
  | [] => ret ()
  | a :: l' => bind (body a) (λ _, for_each l' body)
  end.


End Heap.

Notation "'let*' x ':=' m 'in' k" := (Heap.bind m (λ x, k))
  (at level 10, x pattern, m at level 100, k at level 200, only parsing).

(* ================================================================== *)
(** * [class ShapeRecognitionService] *)
(* ================================================================== *)

Module ShapeRecognitionService.
Section with_cv.
Context `{cv : OpenCV}.

Definition shape_names : list string :=
  ["circle"; "rectangle"; "triangle"; "line"; "arrow"; "diamond"].

(** [_classify_shape(approx)]: [None] is [Ok None]. *)
Definition _classify_shape (approx : contour) : res (option string) :=
  let vertices := Z.of_nat (length approx) in
  if vertices =? 3 then Ok (Some "triangle")
  else if vertices =? 4 then
    '(x, y, w, h) ← boundingRect approx;
    aspect_ratio ← truediv (float_of_Z w) h;
    if (0.8 <=? aspect_ratio)%float && (aspect_ratio <=? 1.2)%float
    then Ok (Some "diamond")
    else Ok (Some "rectangle")
  else if vertices =? 5 then Ok (Some "pentagon")
  else if vertices =? 6 then Ok (Some "hexagon")
  else if vertices =? 8 then Ok (Some "octagon")
  else if vertices >? 8 then Ok (Some "circle")
  else Ok None.

(** The dictionary appended for one classified contour. *)
Definition shape_entry (shape_type : string) (r : rect) (approx : contour) : value :=
  let '(x, y, w, h) := r in
  VDict {[ "type" := VStr shape_type;
           "confidence" := VFloat 0.85;
           "bbox" := VList [VInt x; VInt y; VInt w; VInt h];
           "vertices" := VInt (Z.of_nat (length approx)) ]}.

(** The body of the loop over contours; [if shape_type:] holds for a
    non-empty string only. *)
Definition detect_step (detected_shapes : list value) (c : contour)
  : res (list value) :=
  perimeter ← arcLength c true;
  let epsilon := (0.02 * perimeter)%float in
  approx ← approxPolyDP c epsilon true;
  shape_type ← _classify_shape approx;
  match shape_type with
  | Some (String _ _ as ty) =>
      r ← boundingRect c;
      Ok (detected_shapes ++ [shape_entry ty r approx])
  | _ => Ok detected_shapes
  end.

Definition detect_shapes (image : ndarray) : res dict :=
  gray ← cvtColor image COLOR_RGB2GRAY;
  blurred ← GaussianBlur gray (5, 5) 0;
  edges ← Canny blurred 50 150;
  contours ← findContours edges RETR_EXTERNAL CHAIN_APPROX_SIMPLE;
  detected_shapes ← for_in contours detect_step [];
  Ok ({[ "shapes_detected" := VInt (Z.of_nat (length detected_shapes));
         "shapes" := VList detected_shapes;
         "total_contours" := VInt (Z.of_nat (length contours)) ]} : dict).

(** [x, y, w, h] as the integers a drawing routine needs. *)
Definition int_box (x y w h : value) : res rect :=
  x ← as_int x; y ← as_int y; w ← as_int w; h ← as_int h; Ok (x, y, w, h).

(** The overlay drawn for one shape onto the array at [cleaned_image]. *)
Definition clean_step (cleaned_image : Heap.loc) (shape : dict) : Heap.M () :=
  let* bbox := Heap.lift (getitem shape "bbox") in
  let* (x, y, w, h) := Heap.lift (unpack4 bbox) in
  let* ty := Heap.lift (getitem shape "type") in
  if eq_str ty "rectangle" then
    let* (x, y, w, h) := Heap.lift (int_box x y w h) in
    Heap.update cleaned_image
      (λ img, rectangle img (x, y) (x + w, y + h) (0, 255, 0) 2)
  else if eq_str ty "circle" then
    let* (x, y, w, h) := Heap.lift (int_box x y w h) in
    let center := (x + w / 2, y + h / 2) in
    let radius := Z.min w h / 2 in
    Heap.update cleaned_image (λ img, circle img center radius (0, 255, 0) 2)
  else if eq_str ty "triangle" then
    let* (x, y, w, h) := Heap.lift (int_box x y w h) in
    let pts := [(x, y + h); (x + w / 2, y); (x + w, y + h)] in
    Heap.update cleaned_image
      (λ img, polylines img [pts] true (0, 255, 0) 2)
  else Heap.ret ().

Definition clean_shapes (image : Heap.loc) (detected_shapes : list dict)
  : Heap.M Heap.loc :=
  let* cleaned_image := Heap.copy image in
  let* _ := Heap.for_each detected_shapes (clean_step cleaned_image) in
  Heap.ret cleaned_image.

End with_cv.
End ShapeRecognitionService.

(* ================================================================== *)
(** * [class DiagramDetectionService] *)
(* ================================================================== *)

Module DiagramDetectionService.

Definition diagram_types : list string :=
  ["flowchart"; "uml"; "mindmap"; "network"; "organizational"].

(** [_analyze_text_density]: a placeholder constant. *)
Definition _analyze_text_density (gray : ndarray) : float := 0.3%float.

Definition _classify_diagram (structure connections text : float) : string :=
  if (0.7 <? connections)%float && (0.5 <? structure)%float then "flowchart"
  else if (0.6 <? text)%float && (0.4 <? structure)%float then "uml"
  else if (0.8 <? connections)%float && (text <? 0.3)%float then "mindmap"
  else if (0.8 <? structure)%float then "network"
  else "organizational".

Section with_cv.
Context `{cv : OpenCV}.

Definition _analyze_structure (gray : ndarray) : res float :=
  edges ← Canny gray 50 150;
  lines ← HoughLines edges 1 (3.141592653589793 / 180)%float 100;
  match lines with
  | Some lines =>
      Ok (min_float (float_of_Z (Z.of_nat (length lines)) / 100.0) 1.0)%float
  | None => Ok 0.0%float
  end.

Definition _analyze_connections (gray : ndarray) : res float :=
  '(_, binary) ← threshold gray 127 255 THRESH_BINARY;
  contours ← findContours binary RETR_EXTERNAL CHAIN_APPROX_SIMPLE;
  nodes ← for_in contours
    (λ acc c, area ← contourArea c;
              Ok (if (100 <? area)%float then acc ++ [c] else acc)) [];
  let node_count := Z.of_nat (length nodes) in
  Ok (min_float (float_of_Z node_count / 20.0) 1.0)%float.

Definition detect_diagram_type (image : ndarray) : res dict :=
  gray ← cvtColor image COLOR_RGB2GRAY;
  structure_score ← _analyze_structure gray;
  connection_score ← _analyze_connections gray;
  let text_density := _analyze_text_density gray in
  let diagram_type :=
    _classify_diagram structure_score connection_score text_density in
  Ok ({[ "diagram_type" := VStr diagram_type;
         "confidence" := VFloat 0.78;
         "structure_score" := VFloat structure_score;
         "connection_score" := VFloat connection_score;
         "text_density" := VFloat text_density ]} : dict).

Definition _enhance_flowchart (image : ndarray) : res ndarray :=
  let kernel := ones (2, 2)%nat in
  morphologyEx image MORPH_CLOSE kernel.

Definition _enhance_uml (image : ndarray) : res ndarray :=
  let kernel := ones (3, 3)%nat in
  morphologyEx image MORPH_OPEN kernel.

Definition _enhance_mindmap (image : ndarray) : res ndarray :=
  let kernel := ones (2, 2)%nat in
  morphologyEx image MORPH_CLOSE kernel.

Definition clean_diagram (image : ndarray) (diagram_type : string) : res ndarray :=
  let cleaned := copy image in
  if String.eqb diagram_type "flowchart" then _enhance_flowchart cleaned
  else if String.eqb diagram_type "uml" then _enhance_uml cleaned
  else if String.eqb diagram_type "mindmap" then _enhance_mindmap cleaned
  else Ok cleaned.

End with_cv.
End DiagramDetectionService.

(* ================================================================== *)
(** * [class OCRService] *)
(* ================================================================== *)

Module OCRService.

(** One entry of [reader.readtext]: [(bbox, text, confidence)]. *)
Definition detection : Type := value * string * float.

(** The EasyOCR reader, an external collaborator that may raise. *)
Record Reader := { readtext : ndarray → res (list detection) }.

(** The service object: [self.reader] is a reader or [None]. *)
Record t := { reader : option Reader }.

(** The constructor: the reader import is commented out in the source,
    so [self.reader = None] unconditionally. *)
Definition __init__ : t := {| reader := None |}.

Definition as_str (v : value) : res string :=
  match v with
  | VStr s => Ok s
  | _ => Raise (TypeError "sequence item: expected str instance")
  end.

Section with_cv.
Context `{cv : OpenCV}.

(** The dictionary appended to [extracted_text] for one detection. *)
Definition word_entry (item : detection) : dict :=
  let '(bbox, text, confidence) := item in
  {[ "text" := VStr text; "confidence" := VFloat confidence; "bbox" := bbox ]}.

(** The body of the loop over [results], on the loop-carried pair
    [(extracted_text, total_confidence)]. *)
Definition extract_step (acc : list dict * float) (item : detection)
  : res (list dict * float) :=
  let '(extracted_text, total_confidence) := acc in
  let '(bbox, text, confidence) := item in
  Ok (extracted_text ++ [word_entry (bbox, text, confidence)],
      (total_confidence + confidence)%float).

Definition extract_text (self : t) (image : ndarray) : res dict :=
  match reader self with
  | None =>
      Ok ({[ "text" := VStr "";
             "confidence" := VFloat 0.0;
             "error" := VStr "OCR service not available" ]} : dict)
  | Some rd =>
      try_except
        (image_rgb ← (if (length (shape image) =? 3)%nat
                      then cvtColor image COLOR_BGR2RGB
                      else Ok image);
         results ← readtext rd image_rgb;
         '(extracted_text, total_confidence) ←
           for_in results extract_step ([], 0.0%float);
         avg_confidence ←
           (match results with
            | _ :: _ => truediv total_confidence (Z.of_nat (length results))
            | [] => Ok 0.0%float
            end);
         texts ← mapM (λ item : dict, v ← getitem item "text"; as_str v)
                      extracted_text;
         Ok ({[ "text" := VStr (join " " texts);
                "confidence" := VFloat avg_confidence;
                "words" := VList (VDict <$> extracted_text);
                "word_count" := VInt (Z.of_nat (length extracted_text)) ]} : dict))
        (λ e,
           Ok ({[ "text" := VStr "";
                  "confidence" := VFloat 0.0;
                  "error" := VStr (str_exn e) ]} : dict))
  end.

Definition enhance_handwriting (image : ndarray) : res ndarray :=
  gray ← (if (length (shape image) =? 3)%nat
          then cvtColor image COLOR_RGB2GRAY
          else Ok image);
  enhanced ← adaptiveThreshold gray 255 ADAPTIVE_THRESH_GAUSSIAN_C THRESH_BINARY 11 2;
  denoised ← fastNlMeansDenoising enhanced;
  if (length (shape image) =? 3)%nat
  then cvtColor denoised COLOR_GRAY2RGB
  else Ok denoised.

End with_cv.
End OCRService.

(* ================================================================== *)
(** * [class AIAssistantService] *)
(* ================================================================== *)

Module AIAssistantService.

(** The keyword table of [suggest_diagram], in its insertion order. *)
Definition suggestions : odict (list string) :=
  [ ("flowchart", ["process"; "workflow"; "steps"; "procedure"; "algorithm"]);
    ("uml", ["class"; "object"; "system"; "architecture"; "design"]);
    ("mindmap", ["ideas"; "concepts"; "brainstorming"; "planning"; "organization"]);
    ("network", ["connections"; "relationships"; "graph"; "nodes"; "links"]);
    ("organizational", ["hierarchy"; "structure"; "team"; "management"; "roles"]) ].

(** [sum(1 for keyword in keywords if keyword in description_lower)] *)
Definition keyword_score (description_lower : string) (keywords : list string) : Z :=
  foldl Z.add 0
    ((λ _, 1) <$> List.filter (λ keyword, contains keyword description_lower) keywords).

(** The loop filling [scores]. *)
Definition fill_scores (description_lower : string) : odict Z :=
  foldl (λ scores '(diagram_type, keywords),
           odict_set scores diagram_type (keyword_score description_lower keywords))
        [] suggestions.

Definition suggest_diagram (description : string) : res dict :=
  let description_lower := lower description in
  let scores := fill_scores description_lower in
  let key k := default 0 (odict_get scores k) in
  best_type ←
    (match scores.*1 with
     | k :: ks => Ok (max_by key k ks)
     | [] => Raise (ValueError "max() arg is an empty sequence")
     end);
  best_score ←
    (match odict_get scores best_type with
     | Some v => Ok v
     | None => Raise (KeyError best_type)
     end);
  largest ←
    (match (λ keywords, Z.of_nat (length keywords)) <$> suggestions.*2 with
     | n :: ns => Ok (max_int n ns)
     | [] => Raise (ValueError "max() arg is an empty sequence")
     end);
  confidence ← truediv (float_of_Z best_score) largest;
  Ok ({[ "suggested_diagram" := VStr best_type;
         "confidence" := VFloat confidence;
         "reasoning" :=
           VStr ("Based on keywords: " +:+
                 join ", " (List.filter (λ '(k, v), 0 <? v) scores).*1);
         "alternatives" :=
           VList (VStr <$>
             (List.filter (λ '(k, v), (0 <? v) && negb (String.eqb k best_type))
                          scores).*1) ]} : dict).

(** The body of the loop of [auto_arrange_drawings] for the pair
    [(i, shape)]; [shape.copy()] followed by the assignment of
    ['bbox'] is the insertion into the (persistent) map. *)
Definition arrange_step (cols cell_width cell_height : Z)
    (arranged_shapes : list dict) (item : Z * dict) : res (list dict) :=
  let '(i, shape) := item in
  row ← floordiv i cols;
  col ← pymod i cols;
  let new_x := col * cell_width + cell_width / 2 in
  let new_y := row * cell_height + cell_height / 2 in
  let arranged_shape := shape in
  bbox ← getitem shape "bbox";
  w ← index bbox 2;
  bbox ← getitem shape "bbox";
  h ← index bbox 3;
  let arranged_shape :=
    <["bbox" := VList [VInt new_x; VInt new_y; w; h]]> arranged_shape in
  Ok (arranged_shapes ++ [arranged_shape]).

(** [np.ceil(np.sqrt(n))] and [np.ceil(n / cols)] are taken at their
    mathematical value: the least integer not below the real square
    root, resp. the rational quotient.  The binary64 computation agrees
    with it for every list length below 2^52. *)
Definition auto_arrange_drawings (shapes : list dict) (canvas_size : Z * Z)
  : res (list dict) :=
  match shapes with
  | [] => Ok []
  | _ :: _ =>
      let '(canvas_width, canvas_height) := canvas_size in
      let n := Z.of_nat (length shapes) in
      let cols := Z.sqrt_up n in
      rows ← (if cols =? 0
              then Raise (ZeroDivisionError "division by zero")
              else Ok (Qceiling (inject_Z n / inject_Z cols)));
      cell_width ← floordiv canvas_width cols;
      cell_height ← floordiv canvas_height rows;
      for_in (enumerate shapes) (arrange_step cols cell_width cell_height) []
  end.

(** The service object: [self.text_generator] is a text-generation
    pipeline or [None].  The pipeline is called as
    [generator(prompt, max_length, num_return_sequences)]. *)
Definition TextGenerator : Type := string → Z → Z → res value.
Record t := { text_generator : option TextGenerator }.

(** The icon table of [suggest_icons], in its insertion order, and the
    default list; the icons are the byte strings of the source file. *)
Definition icon_suggestions : odict (list string) :=
  [ ("business", ["ðŸ“Š"; "ðŸ’¼"; "ðŸ“ˆ"; "ðŸŽ¯"; "ðŸ’¡"]);
    ("technology", ["ðŸ’»"; "ðŸ”§"; "âš™ï¸"; "ðŸŒ"; "ðŸ“±"]);
    ("design", ["ðŸŽ¨"; "âœï¸"; "ðŸ–Œï¸"; "ðŸŽ­"; "ðŸ“"]);
    ("education", ["ðŸ“š"; "ðŸŽ“"; "âœï¸"; "ðŸ”¬"; "ðŸ“"]);
    ("health", ["ðŸ¥"; "ðŸ’Š"; "ðŸ©º"; "â¤ï¸"; "ðŸ”¬"]) ].

Definition default_icons : list string :=
  ["ðŸ“"; "ðŸ’¡"; "ðŸ”—"; "ðŸ“Š"; "ðŸŽ¯"].

(** The loop of [suggest_icons]: the icons of the first category whose
    name occurs in the context. *)
Fixpoint first_category (context_lower : string) (table : odict (list string))
  : option (list string) :=
  match table with
  | [] => None
  | (category, icons) :: table' =>
      if contains category context_lower then Some icons
      else first_category context_lower table'
  end.

Definition suggest_icons (context : string) : list string :=
  let context_lower := lower context in
  match first_category context_lower icon_suggestions with
  | Some icons => icons
  | None => default_icons
  end.

(** The sentence [generate_diagram_description] falls back to. *)
Definition description_template (diagram_type : string) (elements : list string)
  : string :=
  "A " +:+ diagram_type +:+ " diagram containing: " +:+ join ", " elements.

(** The bare [except:] catches whatever the generator or the two
    subscripts raise. *)
Definition generate_diagram_description (self : t) (diagram_type : string)
    (elements : list string) : res value :=
  match text_generator self with
  | None => Ok (VStr (description_template diagram_type elements))
  | Some generator =>
      let prompt :=
        "Create a " +:+ diagram_type +:+ " diagram with elements: " +:+
        join ", " elements in
      try_except
        (result ← generator prompt 100 1;
         first ← index result 0;
         match first with
         | VDict d => getitem d "generated_text"
         | VStr _ => Raise (TypeError "string indices must be integers")
         | VList _ =>
             Raise (TypeError "list indices must be integers or slices, not str")
         | _ => Raise (TypeError "object is not subscriptable")
         end)
        (λ _, Ok (VStr (description_template diagram_type elements)))
  end.

(** One turn of the arranging loop on an item of any type: only a
    dictionary gets as far as the box; a list has [copy] but no string
    subscript, anything else has no [copy]. *)
Definition arrange_item (cols cell_width cell_height : Z)
    (arranged_shapes : list dict) (item : Z * value) : res (list dict) :=
  let '(i, shape) := item in
  match shape with
  | VDict d => arrange_step cols cell_width cell_height arranged_shapes (i, d)
  | VList _ =>
      row ← floordiv i cols;
      col ← pymod i cols;
      Raise (TypeError "list indices must be integers or slices, not str")
  | _ =>
      row ← floordiv i cols;
      col ← pymod i cols;
      Raise (Error ("'" +:+ type_name shape +:+ "' object has no attribute 'copy'"))
  end.

(** [auto_arrange_drawings] on whatever [json.loads] produced, as the
    endpoint calls it: the annotation [List[Dict]] is not enforced. *)
Definition auto_arrange_drawings_any (shapes : value) (canvas_size : Z * Z)
  : res (list dict) :=
  if negb (truthy shapes) then Ok []
  else
    let '(canvas_width, canvas_height) := canvas_size in
    n ← len shapes;
    let cols := Z.sqrt_up n in
    rows ← (if cols =? 0
            then Raise (ZeroDivisionError "division by zero")
            else Ok (Qceiling (inject_Z n / inject_Z cols)));
    cell_width ← floordiv canvas_width cols;
    cell_height ← floordiv canvas_height rows;
    items ← iterate shapes;
    for_in (enumerate items) (arrange_item cols cell_width cell_height) [].

End AIAssistantService.

(* ================================================================== *)
(** * [main.py]: the handwriting-recognition endpoint *)
(* ================================================================== *)

Module Main.

(** An uploaded file: what [await image.read()] yields. *)
Record UploadFile := { read : res (list Byte.byte) }.

(** The image codec around the handler: [np.array(Image.open(...))]
    and the PNG/base64 encoding of an array. *)
Class Codec := {
  decode_image : list Byte.byte → res ndarray;
  encode_png_b64 : ndarray → res string;
}.

(** What a handler hands back to the framework: a JSON body, or the
    [HTTPException] it raised. *)
Inductive response :=
| JSONResponse (content : dict)
| HTTPException (status_code : Z) (detail : string).

(** The module-level singleton [ocr_service = OCRService()]. *)
Definition ocr_service : OCRService.t := OCRService.__init__.

Section with_env.
Context `{cv : OpenCV} `{codec : Codec}.

Definition recognize_handwriting (ocr_service : OCRService.t)
    (image : UploadFile) (enhance_image : bool) : response :=
  let attempt : res response :=
    image_data ← read image;
    img_array ← decode_image image_data;
    img_array ← (if enhance_image
                 then OCRService.enhance_handwriting img_array
                 else Ok img_array);
    ocr_result ← OCRService.extract_text ocr_service img_array;
    extracted_text ← getitem ocr_result "text";
    confidence ← getitem ocr_result "confidence";
    word_count ← getitem ocr_result "word_count";
    let words := get ocr_result "words" (VList []) in
    let result : dict :=
      {[ "extracted_text" := extracted_text;
         "confidence" := confidence;
         "word_count" := word_count;
         "words" := words;
         "enhanced_image" := VBool enhance_image ]} in
    result ← (if enhance_image
              then enhanced_b64 ← encode_png_b64 img_array;
                   Ok (<["enhanced_image_b64" := VStr enhanced_b64]> result)
              else Ok result);
    Ok (JSONResponse result) in
  match attempt with
  | Ok r => r
  | Raise e =>
      HTTPException 500 ("Handwriting recognition failed: " +:+ str_exn e)
  end.

End with_env.
(** What [Image.open] exposes besides the pixels: [size] and [mode]. *)
Class Pillow := {
  image_size : list Byte.byte → Z * Z;
  image_mode : list Byte.byte → string;
}.

(** [json.loads] *)
Class Json := { json_loads : string → res value }.

Section more_endpoints.
Context `{cv : OpenCV} `{codec : Codec} `{pil : Pillow} `{json : Json}.

(** [POST /ai/shape-recognition].  The array lives in a store while the
    cleaner draws; the detected shapes are the dictionaries
    [detect_shapes] built. *)
Definition recognize_shapes (image : UploadFile) (clean_shapes : bool) : response :=
  let attempt : res response :=
    image_data ← read image;
    img_array ← decode_image image_data;
    shape_analysis ← ShapeRecognitionService.detect_shapes img_array;
    shapes_detected ← getitem shape_analysis "shapes_detected";
    shapes ← getitem shape_analysis "shapes";
    total_contours ← getitem shape_analysis "total_contours";
    let result : dict :=
      {[ "shapes_detected" := shapes_detected;
         "shapes" := shapes;
         "total_contours" := total_contours;
         "cleaned_shapes" := VBool false ]} in
    result ← (if clean_shapes && truthy shapes
              then
                detected ← (items ← iterate shapes; mapM as_dict items);
                let σ : Heap.heap := {[ 1%positive := img_array ]} in
                match ShapeRecognitionService.clean_shapes 1%positive detected σ with
                | (Ok cleaned_image, σ') =>
                    match σ' !! cleaned_image with
                    | Some cleaned =>
                        cleaned_b64 ← encode_png_b64 cleaned;
                        Ok (<["cleaned_shapes" := VBool true]>
                              (<["cleaned_image" := VStr cleaned_b64]> result))
                    | None => Raise (Error "dangling reference")
                    end
                | (Raise e, _) => Raise e
                end
              else Ok result);
    Ok (JSONResponse result) in
  match attempt with
  | Ok r => r
  | Raise e => HTTPException 500 ("Shape recognition failed: " +:+ str_exn e)
  end.

(** [POST /ai/diagram-detection] *)
Definition detect_diagram (image : UploadFile) (clean_diagram : bool) : response :=
  let attempt : res response :=
    image_data ← read image;
    img_array ← decode_image image_data;
    diagram_analysis ← DiagramDetectionService.detect_diagram_type img_array;
    diagram_type ← getitem diagram_analysis "diagram_type";
    confidence ← getitem diagram_analysis "confidence";
    structure_score ← getitem diagram_analysis "structure_score";
    connection_score ← getitem diagram_analysis "connection_score";
    text_density ← getitem diagram_analysis "text_density";
    let result : dict :=
      {[ "diagram_type" := diagram_type;
         "confidence" := confidence;
         "analysis" :=
           VDict {[ "structure_score" := structure_score;
                    "connection_score" := connection_score;
                    "text_density" := text_density ]};
         "cleaned_diagram" := VBool false ]} in
    result ← (if clean_diagram
              then
                diagram_type ← getitem diagram_analysis "diagram_type";
                cleaned_image ←
                  (match diagram_type with
                   | VStr ty => DiagramDetectionService.clean_diagram img_array ty
                   | _ => Ok (copy img_array)
                   end);
                cleaned_b64 ← encode_png_b64 cleaned_image;
                Ok (<["cleaned_diagram" := VBool true]>
                      (<["cleaned_image" := VStr cleaned_b64]> result))
              else Ok result);
    Ok (JSONResponse result) in
  match attempt with
  | Ok r => r
  | Raise e => HTTPException 500 ("Diagram detection failed: " +:+ str_exn e)
  end.

(** [POST /ai/suggest-diagram] *)
Definition suggest_diagram (description : string) : response :=
  match AIAssistantService.suggest_diagram description with
  | Ok suggestion => JSONResponse suggestion
  | Raise e => HTTPException 500 ("Diagram suggestion failed: " +:+ str_exn e)
  end.

(** [POST /ai/suggest-icons] *)
Definition suggest_icons (context : string) : response :=
  let icons := AIAssistantService.suggest_icons context in
  JSONResponse {[ "suggested_icons" := VList (VStr <$> icons);
                  "context" := VStr context ]}.

(** [POST /ai/auto-arrange]; the tuple [canvas_size] is shown as the
    list it serialises to. *)
Definition auto_arrange_drawings (shapes : string)
    (canvas_width canvas_height : Z) : response :=
  let attempt : res response :=
    shapes_data ← json_loads shapes;
    let canvas_size := (canvas_width, canvas_height) in
    arranged_shapes ←
      AIAssistantService.auto_arrange_drawings_any shapes_data canvas_size;
    Ok (JSONResponse
          {[ "arranged_shapes" := VList (VDict <$> arranged_shapes);
             "canvas_size" := VList [VInt canvas_width; VInt canvas_height];
             "shapes_count" := VInt (Z.of_nat (length arranged_shapes)) ]}) in
  match attempt with
  | Ok r => r
  | Raise e => HTTPException 500 ("Auto-arrangement failed: " +:+ str_exn e)
  end.

(** [POST /ai/complete-analysis]; [result["analysis"]] is built up key
    by key. *)
Definition complete_ai_analysis (ocr_service : OCRService.t) (image : UploadFile)
    (include_ocr include_shape_recognition include_diagram_detection : bool)
  : response :=
  let attempt : res response :=
    image_data ← read image;
    img_array ← decode_image image_data;
    let image_info : dict :=
      {[ "dimensions" :=
           VList [VInt (image_size image_data).1; VInt (image_size image_data).2];
         "mode" := VStr (image_mode image_data);
         "file_size" := VInt (Z.of_nat (length image_data)) ]} in
    let analysis : dict := ∅ in
    analysis ← (if include_shape_recognition
                then shape_analysis ← ShapeRecognitionService.detect_shapes img_array;
                     Ok (<["shapes" := VDict shape_analysis]> analysis)
                else Ok analysis);
    analysis ← (if include_diagram_detection
                then diagram_analysis ←
                       DiagramDetectionService.detect_diagram_type img_array;
                     Ok (<["diagram" := VDict diagram_analysis]> analysis)
                else Ok analysis);
    analysis ← (if include_ocr
                then ocr_result ← OCRService.extract_text ocr_service img_array;
                     Ok (<["text" := VDict ocr_result]> analysis)
                else Ok analysis);
    analysis ← (if truthy (get analysis "diagram" VNone)
                then
                  diagram ← (d ← getitem analysis "diagram"; as_dict d);
                  diagram_type ← getitem diagram "diagram_type";
                  suggestion ←
                    AIAssistantService.suggest_diagram
                      ("Create a " +:+ format_value diagram_type +:+ " diagram");
                  Ok (<["suggestions" := VDict suggestion]> analysis)
                else Ok analysis);
    Ok (JSONResponse {[ "image_info" := VDict image_info;
                        "analysis" := VDict analysis ]}) in
  match attempt with
  | Ok r => r
  | Raise e => HTTPException 500 ("Complete analysis failed: " +:+ str_exn e)
  end.

End more_endpoints.
End Main.

(* ================================================================== *)
(** * The classification rules as the specification words them *)
(* ================================================================== *)

Module Spec.

(** A prioritised rule list: the label of the first rule whose guard
    holds, or the fallback when none does. *)
Fixpoint first_match {A} (rules : list ((A → bool) * string))
    (fallback : string) (x : A) : string :=
  match rules with
  | [] => fallback
  | (guard, label) :: rules' =>
      if guard x then label else first_match rules' fallback x
  end.

(** The four guarded rules of the diagram classifier, in priority
    order, over [(structure_score, connection_score, text_density)]. *)
Definition flowchart_rule : float * float * float → bool :=
  λ '(s, c, t), (0.7 <? c)%float && (0.5 <? s)%float.
Definition uml_rule : float * float * float → bool :=
  λ '(s, c, t), (0.6 <? t)%float && (0.4 <? s)%float.
Definition mindmap_rule : float * float * float → bool :=
  λ '(s, c, t), (0.8 <? c)%float && (t <? 0.3)%float.
Definition network_rule : float * float * float → bool :=
  λ '(s, c, t), (0.8 <? s)%float.

Definition diagram_rules : list ((float * float * float → bool) * string) :=
  [ (flowchart_rule, "flowchart"); (uml_rule, "uml");
    (mindmap_rule, "mindmap"); (network_rule, "network") ].

(** The shape table: the label for a vertex count, given whether the
    aspect ratio of a quadrilateral falls in [[0.8, 1.2]]. *)
Definition shape_label (vertices : nat) (ratio_in_band : bool) : option string :=
  match vertices with
  | 3%nat => Some "triangle"
  | 4%nat => Some (if ratio_in_band then "diamond" else "rectangle")
  | 5%nat => Some "pentagon"
  | 6%nat => Some "hexagon"
  | 8%nat => Some "octagon"
  | _ => if (8 <? vertices)%nat then Some "circle" else None
  end.

(** [0.8 <= w/h <= 1.2] in binary64, as the detector evaluates it. *)
Definition ratio_in_band (w h : Z) : bool :=
  let aspect_ratio := (float_of_Z w / float_of_Z h)%float in
  (0.8 <=? aspect_ratio)%float && (aspect_ratio <=? 1.2)%float.

(** The cleaning table: the morphological operation and the size of its
    all-ones kernel for a diagram type, [None] where nothing is done. *)
Definition cleaning_op (diagram_type : string) : option (morph_op * (nat * nat)) :=
  if String.eqb diagram_type "flowchart" then Some (MORPH_CLOSE, (2, 2)%nat)
  else if String.eqb diagram_type "uml" then Some (MORPH_OPEN, (3, 3)%nat)
  else if String.eqb diagram_type "mindmap" then Some (MORPH_CLOSE, (2, 2)%nat)
  else None.

(** [0.8 <= w/h <= 1.2] over the rationals, cleared of the division
    (for [h > 0]). *)
Definition exact_in_band (w h : Z) : bool :=
  (4 * h <=? 5 * w) && (5 * w <=? 6 * h).

(** The number of keywords of diagram type [ty] that occur as
    substrings of the lower-cased description. *)
Definition keyword_count (description_lower ty : string) : Z :=
  Z.of_nat (length (List.filter (λ keyword, contains keyword description_lower)
                      (default [] (odict_get AIAssistantService.suggestions ty)))).

(** A shape the arranger can place: its ['bbox'] can be read at the
    positions 2 and 3. *)
Definition has_box (shape : dict) : Prop :=
  ∃ bbox w h, shape !! "bbox" = Some bbox ∧ index bbox 2 = Ok w ∧ index bbox 3 = Ok h.

(** Shape number [i] placed at the centre of cell [(i / cols, i mod cols)]
    of a grid of [cell_width] by [cell_height] cells, keeping the width
    and height of its box; [/] and [mod] are the integer operations. *)
Definition arranged (cols cell_width cell_height i : Z) (shape placed : dict) : Prop :=
  ∃ bbox w h,
    shape !! "bbox" = Some bbox ∧ index bbox 2 = Ok w ∧ index bbox 3 = Ok h ∧
    placed =
      <["bbox" := VList [VInt (i mod cols * cell_width + cell_width / 2);
                         VInt (i / cols * cell_height + cell_height / 2);
                         w; h]]> shape.

End Spec.

(* ================================================================== *)
(** * Auxiliary notions for the further properties *)
(* ================================================================== *)

(** The dictionary [shape_entry] builds, with its integer box. *)
Definition entry_dict (ty : string) (x y w h : Z) (vertices : Z) : dict :=
  {[ "type" := VStr ty;
     "confidence" := VFloat 0.85;
     "bbox" := VList [VInt x; VInt y; VInt w; VInt h];
     "vertices" := VInt vertices ]}.

(** Whether [clean_shapes] draws anything for a shape. *)
Definition is_drawn (shape : dict) : bool :=
  match shape !! "type" with
  | Some ty => eq_str ty "rectangle" || eq_str ty "circle" || eq_str ty "triangle"
  | None => false
  end.

(** What every shape must carry for its turn of the loop not to raise
    before any drawing: a ['bbox'] that unpacks into four and a
    ['type']. *)
Definition has_fields (shape : dict) : Prop :=
  ∃ bbox q ty,
    shape !! "bbox" = Some bbox ∧ unpack4 bbox = Ok q ∧ shape !! "type" = Some ty.

(** [all_from f k fuel] checks [f] on the [fuel] integers from [k] on. *)
Fixpoint all_from (f : Z → bool) (k : Z) (fuel : nat) : bool :=
  match fuel with
  | O => true
  | S fuel' => if f k then all_from f (k + 1) fuel' else false
  end.

(** Whether the two scores of the diagram detector, computed for the
    count [n], compare with the classifier's thresholds as [n] does
    with 81, 51, 41 and 15. *)
Definition thresholds_agree (n : Z) : bool :=
  let s := min_float (float_of_Z n / 100.0) 1.0 in
  let c := min_float (float_of_Z n / 20.0) 1.0 in
  Bool.eqb (0.8 <? s)%float (81 <=? n) &&
  Bool.eqb (0.5 <? s)%float (51 <=? n) &&
  Bool.eqb (0.4 <? s)%float (41 <=? n) &&
  Bool.eqb (0.7 <? c)%float (15 <=? n).

(* ================================================================== *)
(** * A small executable OpenCV stand-in *)
(* ================================================================== *)

(** Enough of an implementation to run the services on concrete inputs:
  an array's buffer lists the points of its single contour, filters are
  the identity, and a drawing routine appends the coordinates it was
  given to the buffer. *)
Module Toy.

Fixpoint points_of (buf : list Z) : contour :=
  match buf with
  | x :: y :: buf' => (x, y) :: points_of buf'
  | _ => []
  end.

Definition points_rect (c : contour) : rect :=
  match c with
  | [] => (0, 0, 0, 0)
  | (x0, y0) :: c' =>
      let xmin := foldl Z.min x0 c'.*1 in
      let xmax := foldl Z.max x0 c'.*1 in
      let ymin := foldl Z.min y0 c'.*2 in
      let ymax := foldl Z.max y0 c'.*2 in
      (xmin, ymin, xmax - xmin + 1, ymax - ymin + 1)
  end.

Definition stroke (img : ndarray) (coords : list Z) : ndarray :=
  {| shape := shape img; buffer := buffer img ++ coords |}.

Definition cv : OpenCV := {|
  cvtColor img _ := Ok img;
  GaussianBlur img _ _ := Ok img;
  Canny img _ _ := Ok img;
  findContours img _ _ := Ok [points_of (buffer img)];
  arcLength _ _ := Ok 0%float;
  approxPolyDP c _ _ := Ok c;
  boundingRect c := Ok (points_rect c);
  contourArea _ := Ok 0%float;
  HoughLines _ _ _ _ := Ok None;
  threshold img _ _ _ := Ok (0%float, img);
  adaptiveThreshold img _ _ _ _ _ := Ok img;
  fastNlMeansDenoising img := Ok img;
  morphologyEx img _ _ := Ok img;
  rectangle img p q _ _ := Ok (stroke img [p.1; p.2; q.1; q.2]);
  circle img c r _ _ := Ok (stroke img [c.1; c.2; r]);
  polylines img cs _ _ _ :=
    Ok (stroke img (mjoin ((λ c : contour, mjoin ((λ p : point, [p.1; p.2]) <$> c)) <$> cs)));
|}.

(** A codec that reads one byte per buffer entry. *)
Definition codec : Main.Codec := {|
  Main.decode_image bytes :=
    Ok {| shape := [length bytes]; buffer := (λ b, Z.of_N (Byte.to_N b)) <$> bytes |};
  Main.encode_png_b64 _ := Ok "";
|}.

(** Sample inputs. *)
Definition square : contour := [(0, 0); (10, 0); (10, 10); (0, 10)].

Definition triangle_image : ndarray :=
  {| shape := [20; 20; 3]%nat; buffer := [0; 0; 10; 0; 5; 8] |}.

Definition boxed (ty : string) (x y w h : Z) : dict :=
  {[ "type" := VStr ty; "bbox" := VList [VInt x; VInt y; VInt w; VInt h] ]}.

Definition failing_reader : OCRService.Reader :=
  {| OCRService.readtext _ := Raise (Error "model not loaded") |}.

Definition upload : Main.UploadFile :=
  {| Main.read := Ok [Byte.x00; Byte.x01] |}.

(** A reader that finds two words. *)
Definition two_words : OCRService.Reader :=
  {| OCRService.readtext _ :=
       Ok [(VNone, "hello", 0.5%float); (VNone, "world", 1.0%float)] |}.

(** An upload whose bytes are the coordinates of a triangle. *)
Definition triangle_upload : Main.UploadFile :=
  {| Main.read := Ok [Byte.x00; Byte.x00; Byte.x0a; Byte.x00; Byte.x05; Byte.x08] |}.

Definition pillow : Main.Pillow := {|
  Main.image_size bytes := (Z.of_nat (length bytes), 1);
  Main.image_mode _ := "L";
|}.

(** A parser that knows three documents. *)
Definition json : Main.Json := {|
  Main.json_loads s :=
    if String.eqb s "[]" then Ok (VList [])
    else if String.eqb s "7" then Ok (VInt 7)
    else if String.eqb s "[{}]" then Ok (VList [VDict ∅])
    else Raise (ValueError "Expecting value: line 1 column 1 (char 0)");
|}.

(** Two text generators: one echoes its prompt, one raises. *)
Definition echo : AIAssistantService.TextGenerator :=
  λ prompt _ _, Ok (VList [VDict {[ "generated_text" := VStr prompt ]}]).

Definition silent : AIAssistantService.TextGenerator :=
  λ _ _ _, Raise (Error "out of memory").

End Toy.

(* ================================================================== *)
(** * Properties of the diagram classifier and cleaner *)
(* ================================================================== *)

Section diagram_classifier.
Import DiagramDetectionService.

(** Two constant comparisons decide the pinned case. *)
Lemma pinned_not_above : (0.6 <? 0.3)%float = false.
Proof. reflexivity. Qed.

Lemma pinned_not_below : (0.3 <? 0.3)%float = false.
Proof. reflexivity. Qed.

Lemma classify_pinned (structure connections : float) :
  _classify_diagram structure connections 0.3 =
    if (0.7 <? connections)%float && (0.5 <? structure)%float then "flowchart"
    else if (0.8 <? structure)%float then "network"
    else "organizational".
Proof.
  unfold _classify_diagram.
  rewrite pinned_not_above, pinned_not_below, andb_false_r. reflexivity.
Qed.

(** C2.  With [text_density] at its constant 0.3 (the value
    [_analyze_text_density] returns for every image), the classifier
    never answers ["uml"] nor ["mindmap"], whatever the two other
    scores are: its answer is one of ["flowchart"], ["network"],
    ["organizational"], and each of the three is attained. *)
Theorem classify_diagram_pinned_text_density :
  (∀ gray, _analyze_text_density gray = 0.3%float) ∧
  (∀ structure connections : float,
     let r := _classify_diagram structure connections 0.3 in
     r ≠ "uml" ∧ r ≠ "mindmap" ∧
     (r = "flowchart" ∨ r = "network" ∨ r = "organizational")) ∧
  _classify_diagram 0.9 0.9 0.3 = "flowchart" ∧
  _classify_diagram 0.9 0.5 0.3 = "network" ∧
  _classify_diagram 0.1 0.1 0.3 = "organizational".
Proof.
  split; [reflexivity |]. split; [| repeat split; reflexivity].
  intros structure connections r. subst r. rewrite classify_pinned.
  destruct ((0.7 <? connections)%float && (0.5 <? structure)%float);
    [| destruct (0.8 <? structure)%float]; repeat split; auto; discriminate.
Qed.

(** The [if]/[elif] chain is the first-match evaluation of the rule
    list. *)
Lemma classify_first_match (structure connections text : float) :
  _classify_diagram structure connections text =
    Spec.first_match Spec.diagram_rules "organizational"
      (structure, connections, text).
Proof. reflexivity. Qed.

(** C3.  The classifier's answer is a function of the score triple
    alone, namely the label of the first of the rules flowchart, uml,
    mindmap, network whose guard holds, and ["organizational"] when
    none does.  On [(0.9, 0.9, 0.1)] the answer is ["flowchart"]
    although the guard of the network rule holds there as well. *)
Theorem classify_diagram_priority_order :
  (∀ structure connections text : float,
     _classify_diagram structure connections text =
       Spec.first_match Spec.diagram_rules "organizational"
         (structure, connections, text)) ∧
  Spec.diagram_rules.*2 = ["flowchart"; "uml"; "mindmap"; "network"] ∧
  _classify_diagram 0.9 0.9 0.1 = "flowchart" ∧
  Spec.flowchart_rule (0.9, 0.9, 0.1)%float = true ∧
  Spec.network_rule (0.9, 0.9, 0.1)%float = true.
Proof.
  split; [exact classify_first_match |]. repeat split; reflexivity.
Qed.

End diagram_classifier.

Section diagram_service.
Context `{cv : OpenCV}.
Import DiagramDetectionService.

(** A prioritised rule fires as soon as the rules before it do not. *)
Lemma first_match_priority {A} (pre post : list ((A → bool) * string))
    (guard : A → bool) (label fallback : string) (x : A) :
  Forall (λ r, r.1 x = false) pre →
  guard x = true →
  Spec.first_match (pre ++ (guard, label) :: post) fallback x = label.
Proof.
  induction 1 as [| [g l] pre Hg _ IH]; intros Hx; simpl.
  - by rewrite Hx.
  - simpl in Hg. rewrite Hg. by apply IH.
Qed.

(** What [detect_diagram_type] reports, whenever the image pipeline
    does not raise: the pinned text density and one of three labels. *)
Lemma detect_diagram_type_labels (image : ndarray) :
  match detect_diagram_type image with
  | Ok d =>
      d !! "text_density" = Some (VFloat 0.3) ∧
      d !! "confidence" = Some (VFloat 0.78) ∧
      ∃ ty, d !! "diagram_type" = Some (VStr ty) ∧
            ty ∈ ["flowchart"; "network"; "organizational"]
  | Raise _ => True
  end.
Proof.
  unfold detect_diagram_type.
  destruct (cvtColor image COLOR_RGB2GRAY) as [gray |]; simpl; [| done].
  destruct (_analyze_structure gray) as [s |]; simpl; [| done].
  destruct (_analyze_connections gray) as [c |]; simpl; [| done].
  split; [done |]. split; [done |].
  eexists; split; [done |].
  unfold _analyze_text_density. rewrite classify_pinned.
  destruct ((0.7 <? c)%float && (0.5 <? s)%float);
    [| destruct (0.8 <? s)%float]; set_solver.
Qed.

(** C9.  [clean_diagram] performs one fixed operation chosen by the
    type, the one the table [Spec.cleaning_op] names: a morphological
    closing with the 2x2 all-ones kernel for ["flowchart"] and for
    ["mindmap"], an opening with the 3x3 all-ones kernel for ["uml"], and
    nothing for ["network"] and ["organizational"] (nor for any other
    string), where the result holds the pixels of the input. *)
Theorem clean_diagram_by_type (image : ndarray) :
  (∀ diagram_type : string,
     clean_diagram image diagram_type =
       match Spec.cleaning_op diagram_type with
       | Some (op, size) => morphologyEx image op (ones size)
       | None => Ok image
       end) ∧
  clean_diagram image "flowchart" =
    morphologyEx image MORPH_CLOSE {| shape := [2; 2]%nat; buffer := [1; 1; 1; 1] |} ∧
  clean_diagram image "uml" =
    morphologyEx image MORPH_OPEN
      {| shape := [3; 3]%nat; buffer := [1; 1; 1; 1; 1; 1; 1; 1; 1] |} ∧
  clean_diagram image "mindmap" =
    morphologyEx image MORPH_CLOSE {| shape := [2; 2]%nat; buffer := [1; 1; 1; 1] |} ∧
  clean_diagram image "network" = Ok image ∧
  clean_diagram image "organizational" = Ok image.
Proof.
  split; [| repeat split; reflexivity].
  intros diagram_type. unfold clean_diagram, Spec.cleaning_op.
  destruct (String.eqb diagram_type "flowchart"); [reflexivity |].
  destruct (String.eqb diagram_type "uml"); [reflexivity |].
  destruct (String.eqb diagram_type "mindmap"); reflexivity.
Qed.

End diagram_service.

(* ================================================================== *)
(** * Properties of the shape detector *)
(* ================================================================== *)

(** A loop invariant rule for [for_in]. *)
Lemma for_in_invariant {A S} (P : S → Prop) (body : S → A → res S)
    (l : list A) (s s' : S) :
  P s →
  (∀ s a s1, P s → a ∈ l → body s a = Ok s1 → P s1) →
  for_in l body s = Ok s' →
  P s'.
Proof.
  revert s. induction l as [| a l IH]; intros s Hs Hstep; simpl.
  - intros [= <-]. exact Hs.
  - destruct (body s a) as [s1 |] eqn:Hb; simpl; [| done].
    apply IH.
    + eapply Hstep; [exact Hs | left | exact Hb].
    + intros s2 b s3 H2 Hin. apply Hstep; [exact H2 | by right].
Qed.

Section shape_detector.
Context `{cv : OpenCV}.
Import ShapeRecognitionService.

(** The classifier on anything but a quadrilateral reads the table. *)
Lemma classify_shape_not_4 (approx : contour) (band : bool) :
  length approx ≠ 4%nat →
  _classify_shape approx = Ok (Spec.shape_label (length approx) band).
Proof.
  intros Hne. unfold _classify_shape.
  destruct (length approx) as [| [| [| [| [| [| [| [| [| n]]]]]]]]] eqn:Hlen;
    try reflexivity; try done.
  cbv zeta.
  repeat match goal with
  | |- context [?a =? ?b] =>
      let H := fresh in
      destruct (Z.eqb_spec a b) as [H | H]; [exfalso; lia |]
  end.
  destruct (Z.gtb_spec (Z.of_nat (S (S (S (S (S (S (S (S (S n)))))))))) 8);
    [| exfalso; lia].
  reflexivity.
Qed.

(** The classifier on a quadrilateral with a bounding box of non-zero
    height compares the binary64 ratio [w/h] with the band. *)
Lemma classify_shape_4 (approx : contour) (x y w h : Z) :
  length approx = 4%nat →
  boundingRect approx = Ok (x, y, w, h) →
  h ≠ 0 →
  _classify_shape approx = Ok (Spec.shape_label 4 (Spec.ratio_in_band w h)).
Proof.
  intros Hlen Hbr Hh. unfold _classify_shape. rewrite Hlen, Hbr. simpl.
  unfold truediv. destruct (Z.eqb_spec h 0) as [| _]; [done |]. simpl.
  unfold Spec.ratio_in_band.
  by destruct (_ && _).
Qed.

(** A label is only ever produced for 3, 4, 5, 6, 8 or more than 8
    vertices. *)
Lemma classify_shape_some (approx : contour) (ty : string) :
  _classify_shape approx = Ok (Some ty) →
  (length approx ∉ [0; 1; 2; 7]%nat) ∧ ty ≠ "".
Proof.
  intros H.
  destruct (decide (length approx = 4%nat)) as [H4 | H4].
  - split.
    + rewrite H4, !not_elem_of_cons. repeat split; [lia .. | apply not_elem_of_nil].
    + revert H. unfold _classify_shape. rewrite H4. simpl.
      destruct (boundingRect approx) as [[[[x y] w] h] |]; simpl; [| done].
      destruct (truediv _ _); simpl; [| done].
      destruct (_ && _); intros [= <-]; done.
  - rewrite (classify_shape_not_4 approx false H4) in H.
    injection H as H.
    assert (Hlab : ∀ n, Spec.shape_label n false = Some ty →
                        n ≠ 0%nat ∧ n ≠ 1%nat ∧ n ≠ 2%nat ∧ n ≠ 7%nat ∧ ty ≠ "").
    { intros n.
      destruct n as [| [| [| [| [| [| [| [| [| n]]]]]]]]]; simpl;
        intros [= <-]; repeat split; (lia || done). }
    destruct (Hlab _ H) as (? & ? & ? & ? & ?).
    split; [| done].
    rewrite !not_elem_of_cons. repeat split; [done .. | apply not_elem_of_nil].
Qed.

(** One turn of the detection loop appends at most one entry, and an
    appended entry has the constant confidence and a label that the
    classifier produced for the approximated polygon. *)
Lemma detect_step_emits (acc acc' : list value) (c : contour) :
  detect_step acc c = Ok acc' →
  acc' = acc ∨
  ∃ ty r approx,
    acc' = acc ++ [shape_entry ty r approx] ∧
    _classify_shape approx = Ok (Some ty).
Proof.
  unfold detect_step.
  destruct (arcLength c true) as [perimeter |]; simpl; [| done].
  destruct (approxPolyDP c _ true) as [approx |]; simpl; [| done].
  destruct (_classify_shape approx) as [[[| a ty] |] |] eqn:Hc; simpl;
    try (intros [= <-]; by left); try done.
  destruct (boundingRect c) as [r |]; simpl; [| done].
  intros [= <-]. right. by exists (String a ty), r, approx.
Qed.

Lemma shape_entry_fields (ty : string) (r : rect) (approx : contour) :
  ∃ e : dict,
    shape_entry ty r approx = VDict e ∧
    e !! "type" = Some (VStr ty) ∧
    e !! "confidence" = Some (VFloat 0.85) ∧
    e !! "vertices" = Some (VInt (Z.of_nat (length approx))).
Proof.
  destruct r as [[[x y] w] h]. eexists. split; [reflexivity |].
  repeat split; by simplify_map_eq.
Qed.

(** On boxes of up to 256 by 256 pixels the binary64 test and the exact
    rational band agree, end points included. *)
Lemma ratio_in_band_grid :
  forallb (λ w, forallb (λ h, bool_decide (Spec.ratio_in_band w h = Spec.exact_in_band w h))
                        (seqZ 1 256))
          (seqZ 1 256) = true.
Proof. by vm_compute. Qed.

Lemma ratio_in_band_exact (w h : Z) :
  1 ≤ w ≤ 256 → 1 ≤ h ≤ 256 →
  Spec.ratio_in_band w h = Spec.exact_in_band w h.
Proof.
  intros Hw Hh.
  pose proof ratio_in_band_grid as Hgrid.
  rewrite forallb_forall in Hgrid.
  specialize (Hgrid w). rewrite forallb_forall in Hgrid.
  eapply bool_decide_eq_true_1, Hgrid.
  - apply list_elem_of_In, elem_of_seqZ. lia.
  - apply list_elem_of_In, elem_of_seqZ. lia.
Qed.

(** C1.  The classifier reads the vertex count of the approximated
    polygon off the table [Spec.shape_label]: 3 gives triangle; 4 gives
    diamond when the binary64 ratio [w/h] of the bounding box lies in
    [[0.8, 1.2]] (which, on boxes of up to 256 by 256 pixels, is exactly
    [0.8 <= w/h <= 1.2] over the rationals) and rectangle otherwise; 5, 6 and 8 give pentagon,
    hexagon and octagon; more than 8 gives circle; every other count
    gives no label.  Every shape [detect_shapes] emits carries the
    confidence 0.85 and a label the classifier gave to a polygon with
    that many vertices, so none has 0, 1, 2 or 7 vertices. *)
Theorem shape_detector_classification :
  (∀ (approx : contour) (x y w h : Z),
     (length approx = 4%nat → boundingRect approx = Ok (x, y, w, h) ∧ h ≠ 0) →
     _classify_shape approx =
       Ok (Spec.shape_label (length approx) (Spec.ratio_in_band w h))) ∧
  (∀ b : bool,
     Spec.shape_label 3 b = Some "triangle" ∧
     Spec.shape_label 4 true = Some "diamond" ∧
     Spec.shape_label 4 false = Some "rectangle" ∧
     Spec.shape_label 5 b = Some "pentagon" ∧
     Spec.shape_label 6 b = Some "hexagon" ∧
     Spec.shape_label 8 b = Some "octagon" ∧
     (∀ n, (8 < n)%nat → Spec.shape_label n b = Some "circle") ∧
     Spec.shape_label 0 b = None ∧ Spec.shape_label 1 b = None ∧
     Spec.shape_label 2 b = None ∧ Spec.shape_label 7 b = None) ∧
  (∀ w h : Z,
     1 ≤ w ≤ 256 → 1 ≤ h ≤ 256 →
     Spec.ratio_in_band w h = true ↔ 4 * h ≤ 5 * w ≤ 6 * h) ∧
  (∀ (image : ndarray) (d : dict),
     detect_shapes image = Ok d →
     ∃ shapes,
       d !! "shapes" = Some (VList shapes) ∧
       ∀ s, s ∈ shapes →
         ∃ (e : dict) (ty : string) (approx : contour),
           s = VDict e ∧
           e !! "confidence" = Some (VFloat 0.85) ∧
           e !! "type" = Some (VStr ty) ∧
           e !! "vertices" = Some (VInt (Z.of_nat (length approx))) ∧
           _classify_shape approx = Ok (Some ty) ∧
           length approx ∉ [0; 1; 2; 7]%nat).
Proof.
  split; [| split; [| split]].
  - intros approx x y w h Hq.
    destruct (decide (length approx = 4%nat)) as [H4 | H4].
    + destruct (Hq H4) as [Hbr Hh]. rewrite H4.
      by apply (classify_shape_4 approx x y w h).
    + by apply classify_shape_not_4.
  - intros b. repeat split; try reflexivity.
    intros n Hn.
    do 9 (destruct n as [| n]; [lia |]). reflexivity.
  - intros w h Hw Hh. rewrite (ratio_in_band_exact w h Hw Hh).
    unfold Spec.exact_in_band. rewrite andb_true_iff, !Z.leb_le. lia.
  - intros image d. unfold detect_shapes.
    destruct (cvtColor image COLOR_RGB2GRAY) as [gray |]; simpl; [| done].
    destruct (GaussianBlur gray (5, 5) 0) as [blurred |]; simpl; [| done].
    destruct (Canny blurred 50 150) as [edges |]; simpl; [| done].
    destruct (findContours edges _ _) as [contours |]; simpl; [| done].
    destruct (for_in contours detect_step []) as [shapes |] eqn:Hloop;
      simpl; [| done].
    intros [= <-]. exists shapes. split; [by simplify_map_eq |].
    pattern shapes. eapply for_in_invariant; [| | exact Hloop]; simpl.
    + intros s Hs. by apply elem_of_nil in Hs.
    + intros acc c acc' IH _ Hstep s Hs.
      destruct (detect_step_emits _ _ _ Hstep) as [-> | (ty & r & approx & -> & Hc)];
        [by apply IH |].
      apply elem_of_app in Hs as [Hs | Hs]; [by apply IH |].
      apply list_elem_of_singleton in Hs as ->.
      destruct (shape_entry_fields ty r approx) as (e & -> & Hty & Hconf & Hv).
      exists e, ty, approx. repeat split; try done.
      by apply (classify_shape_some approx ty).
Qed.

End shape_detector.

(* ================================================================== *)
(** * Properties of the shape cleaner *)
(* ================================================================== *)

Section heap_frame.
Import Heap.






End heap_frame.

Section shape_cleaner.
Context `{cv : OpenCV}.
Import ShapeRecognitionService.


(** On an allocated input the cleaner copies it to a fresh location and
    runs the loop on the copy. *)
Lemma clean_shapes_unfold (σ : Heap.heap) (image : Heap.loc) (img : ndarray)
    (detected_shapes : list dict) :
  σ !! image = Some img →
  clean_shapes image detected_shapes σ =
    let out := fresh (dom σ) in
    match Heap.for_each detected_shapes (clean_step out) (<[out := img]> σ) with
    | (Ok _, σ') => (Ok out, σ')
    | (Raise e, σ') => (Raise e, σ')
    end.
Proof.
  intros Himg. unfold clean_shapes, Heap.bind, Heap.copy. by rewrite Himg.
Qed.


(** What one turn of the cleaning loop does for a shape whose ['bbox']
    is a list of four integers, by the shape's ['type']. *)
Lemma clean_step_overlay (l : Heap.loc) (shape : dict) (x y w h : Z) (ty : string) :
  shape !! "bbox" = Some (VList [VInt x; VInt y; VInt w; VInt h]) →
  shape !! "type" = Some (VStr ty) →
  (ty = "rectangle" →
     clean_step l shape =
       Heap.update l (λ img, rectangle img (x, y) (x + w, y + h) (0, 255, 0) 2)) ∧
  (ty = "circle" →
     clean_step l shape =
       Heap.update l
         (λ img, circle img (x + w / 2, y + h / 2) (Z.min w h / 2) (0, 255, 0) 2)) ∧
  (ty = "triangle" →
     clean_step l shape =
       Heap.update l
         (λ img, polylines img [[(x, y + h); (x + w / 2, y); (x + w, y + h)]]
                   true (0, 255, 0) 2)) ∧
  (ty ∉ ["rectangle"; "circle"; "triangle"] → clean_step l shape = Heap.ret ()).
Proof.
  intros Hbbox Hty.
  assert (Hstep : clean_step l shape =
    if String.eqb ty "rectangle" then
      Heap.update l (λ img, rectangle img (x, y) (x + w, y + h) (0, 255, 0) 2)
    else if String.eqb ty "circle" then
      Heap.update l
        (λ img, circle img (x + w / 2, y + h / 2) (Z.min w h / 2) (0, 255, 0) 2)
    else if String.eqb ty "triangle" then
      Heap.update l
        (λ img, polylines img [[(x, y + h); (x + w / 2, y); (x + w, y + h)]]
                  true (0, 255, 0) 2)
    else Heap.ret ()).
  { unfold clean_step, getitem. rewrite Hbbox, Hty.
    unfold Heap.bind, Heap.lift. cbn.
    by repeat destruct (String.eqb ty _). }
  rewrite Hstep. repeat split.
  - by intros ->.
  - by intros ->.
  - by intros ->.
  - intros Hnot. rewrite !not_elem_of_cons in Hnot.
    destruct Hnot as (H1 & H2 & H3 & _).
    apply String.eqb_neq in H1, H2, H3. by rewrite H1, H2, H3.
Qed.



End shape_cleaner.

(* ================================================================== *)
(** * Properties of the text extractor and of its endpoint *)
(* ================================================================== *)

Section text_extractor.
Context `{cv : OpenCV}.
Import OCRService.

(** The loop over the detections never raises: it appends one entry per
    detection and sums the confidences. *)
Lemma extract_loop (results : list detection) (acc : list dict) (total : float) :
  for_in results extract_step (acc, total) =
    Ok (acc ++ (word_entry <$> results),
        foldl (λ t (item : detection), (t + item.2)%float) total results).
Proof.
  revert acc total. induction results as [| [[bbox text] c] results IH];
    intros acc total; simpl.
  - by rewrite app_nil_r.
  - rewrite IH. by rewrite <- app_assoc.
Qed.

Lemma word_entry_text (item : detection) :
  getitem (word_entry item) "text" = Ok (VStr item.1.2).
Proof. destruct item as [[bbox text] c]. unfold getitem. by simplify_map_eq. Qed.

(** Reading the texts back from the entries never raises either. *)
Lemma entry_texts (results : list detection) :
  mapM (λ item : dict, v ← getitem item "text"; as_str v) (word_entry <$> results) =
    Ok ((λ item : detection, item.1.2) <$> results).
Proof.
  induction results as [| item results IH]; [done |].
  rewrite !fmap_cons. cbn [mapM]. rewrite word_entry_text.
  cbn [mbind res_bind as_str]. by rewrite IH.
Qed.

(** The body of the [try] block, in closed form once the reader has
    answered. *)
Lemma extract_text_answer (rd : Reader) (image image_rgb : ndarray)
    (results : list detection) :
  (if (length (shape image) =? 3)%nat
   then cvtColor image COLOR_BGR2RGB else Ok image) = Ok image_rgb →
  readtext rd image_rgb = Ok results →
  ∃ avg : float,
    extract_text {| reader := Some rd |} image =
      Ok {[ "text" := VStr (join " " ((λ item : detection, item.1.2) <$> results));
            "confidence" := VFloat avg;
            "words" := VList (VDict <$> (word_entry <$> results));
            "word_count" := VInt (Z.of_nat (length results)) ]} ∧
    (results = [] → avg = 0.0%float).
Proof.
  intros Hrgb Hread. unfold extract_text. simpl. rewrite Hrgb. simpl.
  rewrite Hread. simpl. rewrite extract_loop. simpl.
  destruct results as [| r results].
  - exists 0.0%float. split; [| done]. reflexivity.
  - unfold truediv.
    destruct (Z.eqb_spec (Z.of_nat (length (r :: results))) 0) as [H0 | _];
      [simpl in H0; lia |].
    eexists. split; [| intros [=]].
    cbn [mbind res_bind]. rewrite entry_texts. cbn [mbind res_bind try_except].
    by rewrite length_fmap.
Qed.

End text_extractor.

Section text_extractor_claims.
Context `{cv : OpenCV}.
Import OCRService.

(** What [extract_text] answers without a reader. *)
Lemma extract_text_disabled (image : ndarray) :
  extract_text {| reader := None |} image =
    Ok {[ "text" := VStr ""; "confidence" := VFloat 0.0;
          "error" := VStr "OCR service not available" ]}.
Proof. reflexivity. Qed.

(** An exception inside the [try] block becomes the error payload. *)
Lemma extract_text_caught (rd : Reader) (image : ndarray) (e : exn) :
  (if (length (shape image) =? 3)%nat
   then cvtColor image COLOR_BGR2RGB else Ok image) = Raise e ∨
  (∃ image_rgb,
     (if (length (shape image) =? 3)%nat
      then cvtColor image COLOR_BGR2RGB else Ok image) = Ok image_rgb ∧
     readtext rd image_rgb = Raise e) →
  extract_text {| reader := Some rd |} image =
    Ok {[ "text" := VStr ""; "confidence" := VFloat 0.0;
          "error" := VStr (str_exn e) ]}.
Proof.
  unfold extract_text. simpl.
  intros [-> | (image_rgb & -> & Hread)]; simpl; [done |].
  by rewrite Hread.
Qed.

(** C7.  Without a reader [extract_text] returns exactly the payload
    with empty text, confidence 0.0 and the error "OCR service not
    available"; with or without a reader it always returns a dictionary
    and never raises; with a reader, an exception raised by the channel
    conversion or by the reader comes back as the payload with empty
    text, confidence 0.0 and the exception's message; and when the
    reader finds nothing the confidence is 0.0. *)
Theorem extract_text_never_raises (image : ndarray) :
  extract_text {| reader := None |} image =
    Ok {[ "text" := VStr ""; "confidence" := VFloat 0.0;
          "error" := VStr "OCR service not available" ]} ∧
  (∀ self : t, ∃ d : dict, extract_text self image = Ok d) ∧
  (∀ (rd : Reader) (e : exn),
     (if (length (shape image) =? 3)%nat
      then cvtColor image COLOR_BGR2RGB else Ok image) = Raise e ∨
     (∃ image_rgb,
        (if (length (shape image) =? 3)%nat
         then cvtColor image COLOR_BGR2RGB else Ok image) = Ok image_rgb ∧
        readtext rd image_rgb = Raise e) →
     extract_text {| reader := Some rd |} image =
       Ok {[ "text" := VStr ""; "confidence" := VFloat 0.0;
             "error" := VStr (str_exn e) ]}) ∧
  (∀ (rd : Reader) (image_rgb : ndarray),
     (if (length (shape image) =? 3)%nat
      then cvtColor image COLOR_BGR2RGB else Ok image) = Ok image_rgb →
     readtext rd image_rgb = Ok [] →
     extract_text {| reader := Some rd |} image =
       Ok {[ "text" := VStr ""; "confidence" := VFloat 0.0;
             "words" := VList []; "word_count" := VInt 0 ]}).
Proof.
  split; [apply extract_text_disabled |]. split; [| split].
  - intros [[rd |]]; [| eexists; apply extract_text_disabled].
    destruct (if (length (shape image) =? 3)%nat
              then cvtColor image COLOR_BGR2RGB else Ok image)
      as [image_rgb | e] eqn:Hrgb.
    + destruct (readtext rd image_rgb) as [results | e] eqn:Hread.
      * destruct (extract_text_answer rd image image_rgb results Hrgb Hread)
          as (avg & -> & _). by eexists.
      * eexists. apply extract_text_caught. right. by exists image_rgb.
    + eexists. apply extract_text_caught. by left.
  - intros rd e. apply extract_text_caught.
  - intros rd image_rgb Hrgb Hread.
    destruct (extract_text_answer rd image image_rgb [] Hrgb Hread)
      as (avg & -> & Havg).
    by rewrite Havg.
Qed.

End text_extractor_claims.

Section handwriting_endpoint.
Context `{cv : OpenCV} `{codec : Main.Codec}.
Import OCRService Main.

(** The payload of a disabled reader has no ['word_count']. *)
Lemma disabled_payload_keys (image : ndarray) :
  ∃ d : dict,
    extract_text {| reader := None |} image = Ok d ∧
    dom d = {[ "text"; "confidence"; "error" ]} ∧
    d !! "word_count" = None ∧
    d !! "words" = None ∧
    getitem d "word_count" = Raise (KeyError "word_count").
Proof.
  eexists. split; [apply extract_text_disabled |].
  split; [| by repeat split].
  rewrite !dom_insert_L, dom_singleton_L. set_solver.
Qed.

(** C10.  With the reader disabled, the payload of [extract_text] has
    exactly the keys text, confidence and error, so looking up
    ['word_count'] in it raises [KeyError].  The handler does that lookup
    unconditionally: for the service object the module constructs (its
    reader is [None]) every request ends in the [HTTPException] with
    status 500, never in a JSON response; and when upload, decoding and
    the optional enhancement succeed, the detail is the message of that
    [KeyError]. *)
Theorem handwriting_endpoint_fails_when_disabled
    (image : UploadFile) (enhance_image : bool) :
  reader ocr_service = None ∧
  (∀ img : ndarray,
     ∃ d : dict,
       extract_text {| reader := None |} img = Ok d ∧
       dom d = {[ "text"; "confidence"; "error" ]} ∧
       d !! "word_count" = None ∧
       d !! "words" = None ∧
       getitem d "word_count" = Raise (KeyError "word_count")) ∧
  (∃ detail : string,
     recognize_handwriting ocr_service image enhance_image =
       HTTPException 500 detail) ∧
  (∀ (image_data : list Byte.byte) (decoded img_array : ndarray),
     read image = Ok image_data →
     decode_image image_data = Ok decoded →
     (if enhance_image then enhance_handwriting decoded else Ok decoded)
       = Ok img_array →
     recognize_handwriting ocr_service image enhance_image =
       HTTPException 500 "Handwriting recognition failed: 'word_count'").
Proof.
  split; [reflexivity |]. split; [apply disabled_payload_keys |].
  assert (Hmain : ∀ image_data decoded img_array,
    read image = Ok image_data →
    decode_image image_data = Ok decoded →
    (if enhance_image then enhance_handwriting decoded else Ok decoded)
      = Ok img_array →
    recognize_handwriting ocr_service image enhance_image =
      HTTPException 500 "Handwriting recognition failed: 'word_count'").
  { intros image_data decoded img_array Hread Hdec Henh.
    unfold recognize_handwriting. rewrite Hread. simpl. rewrite Hdec. simpl.
    rewrite Henh. reflexivity. }
  split; [| exact Hmain].
  destruct (read image) as [image_data | e] eqn:Hread;
    [| eexists; unfold recognize_handwriting; by rewrite Hread].
  destruct (decode_image image_data) as [decoded | e] eqn:Hdec;
    [| eexists; unfold recognize_handwriting; rewrite Hread; simpl;
       by rewrite Hdec].
  destruct (if enhance_image then enhance_handwriting decoded else Ok decoded)
    as [img_array | e] eqn:Henh.
  - eexists. by apply (Hmain image_data decoded img_array).
  - eexists. unfold recognize_handwriting. rewrite Hread. simpl.
    rewrite Hdec. simpl. by rewrite Henh.
Qed.

End handwriting_endpoint.

(* ================================================================== *)
(** * Properties of the suggestion engine *)
(* ================================================================== *)

(** [max(l, key=...)] returns the first element whose key is largest:
    everything before it has a strictly smaller key, everything after it
    a key that is not larger. *)
Lemma max_by_first {A} (key : A → Z) (l pre mid : list A) (best : A) :
  Forall (λ a, key a < key best) pre →
  Forall (λ a, key a ≤ key best) mid →
  ∃ pre' post',
    pre ++ best :: mid ++ l = pre' ++ max_by key best l :: post' ∧
    Forall (λ a, key a < key (max_by key best l)) pre' ∧
    Forall (λ a, key a ≤ key (max_by key best l)) post'.
Proof.
  revert pre mid best. induction l as [| a l IH]; intros pre mid best Hpre Hmid.
  - exists pre, mid. by rewrite app_nil_r.
  - simpl. destruct (Z.ltb_spec (key best) (key a)) as [Hlt | Hge].
    + destruct (IH (pre ++ best :: mid) [] a) as (pre' & post' & Heq & H1 & H2).
      * apply Forall_app. split; [| constructor].
        -- eapply Forall_impl; [exact Hpre | simpl; intros; lia].
        -- done.
        -- eapply Forall_impl; [exact Hmid | simpl; intros; lia].
      * constructor.
      * exists pre', post'. split; [| done].
        rewrite <- Heq. by rewrite <- app_assoc.
    + destruct (IH pre (mid ++ [a]) best) as (pre' & post' & Heq & H1 & H2).
      * done.
      * apply Forall_app. split; [done |]. by constructor.
      * exists pre', post'. split; [| done].
        rewrite <- Heq. by rewrite <- (app_assoc mid).
Qed.

Lemma sum_of_ones {A} (l : list A) (acc : Z) :
  foldl Z.add acc ((λ _, 1) <$> l) = acc + Z.of_nat (length l).
Proof.
  revert acc. induction l as [| a l IH]; intros acc; simpl; [lia |].
  rewrite IH. lia.
Qed.

Lemma filter_keys {V} (p : string → V → bool) (f : string → V) (names : list string) :
  (List.filter (λ '(k, v), p k v) ((λ k, (k, f k)) <$> names)).*1 =
    List.filter (λ k, p k (f k)) names.
Proof.
  induction names as [| k names IH]; [done |].
  rewrite fmap_cons. cbn [List.filter].
  destruct (p k (f k)); [rewrite fmap_cons; cbn [fst] |]; by rewrite IH.
Qed.

Section suggestion_engine.
Import AIAssistantService.

Lemma keyword_score_counts (description_lower : string) (keywords : list string) :
  keyword_score description_lower keywords =
    Z.of_nat (length (List.filter (λ keyword, contains keyword description_lower)
                        keywords)).
Proof. unfold keyword_score. by rewrite sum_of_ones. Qed.

(** The loop fills [scores] with one count per type, in table order. *)
Lemma fill_scores_counts (description_lower : string) :
  fill_scores description_lower =
    (λ ty, (ty, Spec.keyword_count description_lower ty)) <$> suggestions.*1.
Proof.
  unfold fill_scores, Spec.keyword_count. simpl.
  by rewrite !keyword_score_counts.
Qed.

Lemma score_lookup (description_lower ty : string) :
  ty ∈ suggestions.*1 →
  odict_get (fill_scores description_lower) ty =
    Some (Spec.keyword_count description_lower ty).
Proof.
  rewrite fill_scores_counts. simpl.
  rewrite !elem_of_cons, elem_of_nil.
  intros [-> | [-> | [-> | [-> | [-> | []]]]]]; reflexivity.
Qed.

End suggestion_engine.

Section suggestion_claims.
Import AIAssistantService.


End suggestion_claims.

(* ================================================================== *)
(** * Properties of the auto-arranger *)
(* ================================================================== *)

(** The ceiling of a quotient, by its two defining inequalities. *)
Lemma ceil_quotient (n cols : Z) :
  0 < cols →
  let rows := Qceiling (inject_Z n / inject_Z cols) in
  (rows - 1) * cols < n ≤ rows * cols.
Proof.
  intros Hcols rows.
  assert (Hrows : rows = - ((- n) / cols)).
  { subst rows. destruct cols as [| p | p]; try lia.
    unfold Qceiling, Qfloor, Qdiv, Qinv, Qmult, Qopp, inject_Z. simpl.
    by rewrite Z.mul_1_r. }
  rewrite Hrows.
  pose proof (Z.div_mod (- n) cols ltac:(lia)) as Hdm.
  pose proof (Z.mod_pos_bound (- n) cols Hcols) as Hb.
  nia.
Qed.

Section auto_arranger.
Import AIAssistantService.

(** One turn of the arranging loop, read both ways. *)
Lemma arrange_step_ok (cols cw ch i : Z) (acc : list dict) (shape : dict) :
  cols ≠ 0 →
  Spec.has_box shape →
  ∃ placed,
    arrange_step cols cw ch acc (i, shape) = Ok (acc ++ [placed]) ∧
    Spec.arranged cols cw ch i shape placed.
Proof.
  intros Hcols (bbox & w & h & Hb & Hw & Hh).
  eexists. split.
  - unfold arrange_step, floordiv, pymod, getitem.
    destruct (Z.eqb_spec cols 0) as [| _]; [done |]. simpl.
    rewrite Hb. simpl. rewrite Hw. simpl. rewrite Hh. simpl. reflexivity.
  - by exists bbox, w, h.
Qed.

Lemma arrange_step_inv (cols cw ch i : Z) (acc acc' : list dict) (shape : dict) :
  arrange_step cols cw ch acc (i, shape) = Ok acc' →
  ∃ placed, acc' = acc ++ [placed] ∧ Spec.arranged cols cw ch i shape placed.
Proof.
  unfold arrange_step, floordiv, pymod, getitem.
  destruct (cols =? 0); simpl; [done |].
  destruct (shape !! "bbox") as [bbox |] eqn:Hb; simpl; [| done].
  destruct (index bbox 2) as [w |] eqn:Hw; simpl; [| done].
  destruct (index bbox 3) as [h |] eqn:Hh; simpl; [| done].
  intros [= <-]. eexists. split; [done |]. by exists bbox, w, h.
Qed.

(** The loop places the shapes one by one, in order. *)
Lemma arrange_loop_inv (cols cw ch : Z) (shapes : list dict) (k : Z)
    (acc out : list dict) :
  for_in (enumerate_from k shapes) (arrange_step cols cw ch) acc = Ok out →
  ∃ tail,
    out = acc ++ tail ∧
    length tail = length shapes ∧
    ∀ (j : nat) shape, shapes !! j = Some shape →
      ∃ placed, tail !! j = Some placed ∧
                Spec.arranged cols cw ch (k + Z.of_nat j) shape placed.
Proof.
  revert k acc. induction shapes as [| shape shapes IH]; intros k acc;
    cbn [enumerate_from for_in].
  - intros [= <-]. exists []. by rewrite app_nil_r.
  - destruct (arrange_step cols cw ch acc (k, shape)) as [acc1 |] eqn:Hstep;
      cbn [mbind res_bind]; [| done].
    intros Hloop.
    destruct (arrange_step_inv _ _ _ _ _ _ _ Hstep) as (placed & -> & Hplaced).
    destruct (IH _ _ Hloop) as (tail & -> & Hlen & Htail).
    exists (placed :: tail). split; [by rewrite <- app_assoc |].
    split; [simpl; by rewrite Hlen |].
    intros [| j] s Hs; simpl in Hs.
    + injection Hs as <-. exists placed. split; [done |].
      by rewrite Z.add_0_r.
    + destruct (Htail j s Hs) as (p & Hp & Harr).
      exists p. split; [done |].
      by replace (k + Z.of_nat (S j)) with (k + 1 + Z.of_nat j) by lia.
Qed.

Lemma arrange_loop_ok (cols cw ch : Z) (shapes : list dict) (k : Z)
    (acc : list dict) :
  cols ≠ 0 →
  Forall Spec.has_box shapes →
  ∃ out, for_in (enumerate_from k shapes) (arrange_step cols cw ch) acc = Ok out.
Proof.
  intros Hcols Hall. revert k acc.
  induction Hall as [| shape shapes Hbox _ IH]; intros k acc;
    cbn [enumerate_from for_in].
  - by eexists.
  - destruct (arrange_step_ok cols cw ch k acc shape Hcols Hbox)
      as (placed & -> & _).
    cbn [mbind res_bind]. apply IH.
Qed.

(** The grid has at least one column and one row for a non-empty list. *)
Lemma grid_dimensions (n : Z) :
  0 < n →
  let cols := Z.sqrt_up n in
  let rows := Qceiling (inject_Z n / inject_Z cols) in
  0 < cols ∧ 0 < rows ∧
  (cols - 1) * (cols - 1) < n ≤ cols * cols ∧
  (rows - 1) * cols < n ≤ rows * cols.
Proof.
  intros Hn cols rows.
  assert (Hcols : 0 < cols) by (by apply Z.sqrt_up_pos).
  pose proof (Z.sqrt_up_spec n Hn) as Hsq. fold cols in Hsq.
  rewrite <- Z.sub_1_r in Hsq. unfold Z.square in Hsq.
  pose proof (ceil_quotient n cols Hcols) as Hceil. fold rows in Hceil.
  cbv zeta in Hceil.
  assert (0 < rows) by nia.
  repeat split; lia.
Qed.

(** The arranger, unfolded on a non-empty list. *)
Lemma auto_arrange_unfold (shapes : list dict) (canvas_width canvas_height : Z) :
  shapes ≠ [] →
  let n := Z.of_nat (length shapes) in
  let cols := Z.sqrt_up n in
  let rows := Qceiling (inject_Z n / inject_Z cols) in
  auto_arrange_drawings shapes (canvas_width, canvas_height) =
    for_in (enumerate shapes)
      (arrange_step cols (canvas_width / cols) (canvas_height / rows)) [].
Proof.
  intros Hne n cols rows.
  assert (Hn : 0 < n).
  { subst n. destruct shapes; [done | simpl; lia]. }
  destruct (grid_dimensions n Hn) as (Hcols & Hrows & _).
  change (0 < cols) in Hcols. change (0 < rows) in Hrows.
  destruct shapes as [| shape shapes]; [done |].
  unfold auto_arrange_drawings, floordiv.
  change (Z.of_nat (length (shape :: shapes))) with n.
  change (Z.sqrt_up n) with cols.
  replace (cols =? 0) with false by (symmetry; apply Z.eqb_neq; lia).
  cbn [mbind res_bind]. change (Qceiling _) with rows.
  replace (rows =? 0) with false by (symmetry; apply Z.eqb_neq; lia).
  reflexivity.
Qed.

Lemma arranged_bbox (cols cw ch i : Z) (shape placed : dict) :
  Spec.arranged cols cw ch i shape placed →
  (∀ key, key ≠ "bbox" → placed !! key = shape !! key) ∧
  ∃ bbox w h,
    shape !! "bbox" = Some bbox ∧ index bbox 2 = Ok w ∧ index bbox 3 = Ok h ∧
    placed !! "bbox" =
      Some (VList [VInt (i mod cols * cw + cw / 2);
                   VInt (i / cols * ch + ch / 2); w; h]).
Proof.
  intros (bbox & w & h & Hb & Hw & Hh & ->). split.
  - intros key Hkey. by rewrite lookup_insert_ne.
  - exists bbox, w, h. by rewrite lookup_insert_eq.
Qed.

(** C4.  On the empty list the arranger returns the empty list.  On [n]
    shapes, [n > 0], whose boxes can be read, it returns [n] shapes; with
    [cols] the ceiling of the square root of [n] (the least integer with
    [n <= cols * cols]), [rows] the ceiling of [n / cols] (the least
    integer with [n <= rows * cols]), and cells of [canvas_width / cols]
    by [canvas_height / rows] (integer division, as in the code), shape
    [i] lies in row [i / cols] and column [i mod cols] of the grid and is
    placed at [(col * cell_width + cell_width / 2,
    row * cell_height + cell_height / 2)].  For five shapes on an 800 by
    600 canvas that is 3 columns and 2 rows of cells of 266 by 300. *)
Theorem auto_arrange_grid :
  (∀ canvas_size, auto_arrange_drawings [] canvas_size = Ok []) ∧
  (∀ (shapes : list dict) (canvas_width canvas_height : Z),
     shapes ≠ [] →
     Forall Spec.has_box shapes →
     let n := Z.of_nat (length shapes) in
     let cols := Z.sqrt_up n in
     let rows := Qceiling (inject_Z n / inject_Z cols) in
     let cell_width := canvas_width / cols in
     let cell_height := canvas_height / rows in
     (cols - 1) * (cols - 1) < n ≤ cols * cols ∧
     (rows - 1) * cols < n ≤ rows * cols ∧
     ∃ out,
       auto_arrange_drawings shapes (canvas_width, canvas_height) = Ok out ∧
       length out = length shapes ∧
       ∀ (i : nat) (shape : dict), shapes !! i = Some shape →
         let row := Z.of_nat i / cols in
         let col := Z.of_nat i mod cols in
         0 ≤ row < rows ∧ 0 ≤ col < cols ∧
         ∃ placed w h,
           out !! i = Some placed ∧
           placed !! "bbox" =
             Some (VList [VInt (col * cell_width + cell_width / 2);
                          VInt (row * cell_height + cell_height / 2); w; h])) ∧
  (Z.sqrt_up 5 = 3 ∧ Qceiling (inject_Z 5 / inject_Z 3) = 2 ∧
   800 / 3 = 266 ∧ 600 / 2 = 300) ∧
  (∀ shapes : list dict,
     length shapes = 5%nat →
     Forall Spec.has_box shapes →
     ∃ out,
       auto_arrange_drawings shapes (800, 600) = Ok out ∧
       ∀ (i : nat) (shape : dict), shapes !! i = Some shape →
         ∃ placed w h,
           out !! i = Some placed ∧
           placed !! "bbox" =
             Some (VList [VInt (Z.of_nat i mod 3 * 266 + 266 / 2);
                          VInt (Z.of_nat i / 3 * 300 + 300 / 2); w; h])).
Proof.
  assert (Hgrid : ∀ (shapes : list dict) (canvas_width canvas_height : Z),
     shapes ≠ [] →
     Forall Spec.has_box shapes →
     let n := Z.of_nat (length shapes) in
     let cols := Z.sqrt_up n in
     let rows := Qceiling (inject_Z n / inject_Z cols) in
     let cell_width := canvas_width / cols in
     let cell_height := canvas_height / rows in
     (cols - 1) * (cols - 1) < n ≤ cols * cols ∧
     (rows - 1) * cols < n ≤ rows * cols ∧
     ∃ out,
       auto_arrange_drawings shapes (canvas_width, canvas_height) = Ok out ∧
       length out = length shapes ∧
       ∀ (i : nat) (shape : dict), shapes !! i = Some shape →
         let row := Z.of_nat i / cols in
         let col := Z.of_nat i mod cols in
         0 ≤ row < rows ∧ 0 ≤ col < cols ∧
         ∃ placed w h,
           out !! i = Some placed ∧
           placed !! "bbox" =
             Some (VList [VInt (col * cell_width + cell_width / 2);
                          VInt (row * cell_height + cell_height / 2); w; h])).
  { intros shapes W H Hne Hall n cols rows cw ch.
    assert (Hn : 0 < n).
    { subst n. destruct shapes; [done | simpl; lia]. }
    destruct (grid_dimensions n Hn) as (Hcols & Hrows & Hsq & Hceil).
    change (0 < cols) in Hcols. change (0 < rows) in Hrows.
    change ((cols - 1) * (cols - 1) < n ≤ cols * cols) in Hsq.
    change ((rows - 1) * cols < n ≤ rows * cols) in Hceil.
    split; [done |]. split; [done |].
    pose proof (auto_arrange_unfold shapes W H Hne) as Hrun.
    cbv zeta in Hrun. fold n cols rows cw ch in Hrun.
    destruct (arrange_loop_ok cols cw ch shapes 0 [] ltac:(lia) Hall)
      as (out & Hout).
    destruct (arrange_loop_inv _ _ _ _ _ _ _ Hout) as (tail & -> & Hlen & Htail).
    exists tail. split; [by rewrite Hrun |]. split; [done |].
    intros i shape Hi row col.
    assert (Hi' : Z.of_nat i < n).
    { subst n. apply lookup_lt_Some in Hi. lia. }
    assert (Hrow : 0 ≤ row < rows).
    { subst row. split; [apply Z.div_pos; lia |].
      apply Z.div_lt_upper_bound; lia. }
    assert (Hcol : 0 ≤ col < cols) by (subst col; apply Z.mod_pos_bound; lia).
    split; [done |]. split; [done |].
    destruct (Htail i shape Hi) as (placed & Hp & Harr).
    apply arranged_bbox in Harr as (_ & bbox & w & h & _ & _ & _ & Hbox).
    exists placed, w, h. split; [done |].
    by rewrite Z.add_0_l in Hbox. }
  split; [done |]. split; [exact Hgrid |]. split; [by vm_compute |].
  intros shapes Hlen Hall.
  assert (Hne : shapes ≠ []) by (by destruct shapes).
  destruct (Hgrid shapes 800 600 Hne Hall) as (_ & _ & out & Hout & _ & Hplaced).
  rewrite Hlen in Hplaced. exists out. split; [done |].
  intros i shape Hi.
  destruct (Hplaced i shape Hi) as (_ & _ & Hp). exact Hp.
Qed.

(** C5.  Whatever the arranger returns, it returns one shape per input
    shape, in order; an output shape agrees with its input shape on
    every key other than ['bbox'], and its ['bbox'] is a list of four
    entries whose last two are entries 2 and 3 (width and height) of the
    input box: only the first two, [x] and [y], are new. *)
Theorem auto_arrange_preserves_size
    (shapes : list dict) (canvas_size : Z * Z) (out : list dict) :
  auto_arrange_drawings shapes canvas_size = Ok out →
  length out = length shapes ∧
  ∀ (i : nat) (shape placed : dict),
    shapes !! i = Some shape →
    out !! i = Some placed →
    (∀ key, key ≠ "bbox" → placed !! key = shape !! key) ∧
    ∃ bbox x y w h,
      shape !! "bbox" = Some bbox ∧
      index bbox 2 = Ok w ∧ index bbox 3 = Ok h ∧
      placed !! "bbox" = Some (VList [VInt x; VInt y; w; h]).
Proof.
  destruct canvas_size as [W H].
  destruct (decide (shapes = [])) as [-> | Hne].
  - intros [= <-]. split; [done |]. intros i shape placed Hi. done.
  - rewrite (auto_arrange_unfold shapes W H Hne). cbv zeta. intros Hrun.
    destruct (arrange_loop_inv _ _ _ _ _ _ _ Hrun) as (tail & -> & Hlen & Htail).
    split; [done |].
    intros i shape placed Hi Hp.
    destruct (Htail i shape Hi) as (placed' & Hp' & Harr).
    simpl in Hp. rewrite Hp in Hp'. injection Hp' as <-.
    apply arranged_bbox in Harr as (Hkeys & bbox & w & h & Hb & Hw & Hh & Hbox).
    split; [done |]. by eauto 10.
Qed.

End auto_arranger.

(* ================================================================== *)
(** * The theorems at concrete inputs *)
(* ================================================================== *)

(** A square polygon is a diamond, and the one triangle of the sample
    image is emitted with confidence 0.85. *)
Lemma shape_detector_classification_witness :
  ShapeRecognitionService._classify_shape (cv := Toy.cv) Toy.square
    = Ok (Some "diamond") ∧
  ∃ (d : dict) (shapes : list value),
    ShapeRecognitionService.detect_shapes (cv := Toy.cv) Toy.triangle_image = Ok d ∧
    d !! "shapes" = Some (VList shapes) ∧
    length shapes = 1%nat ∧
    ∀ s, s ∈ shapes →
      ∃ (e : dict) (ty : string) (approx : contour),
        s = VDict e ∧
        e !! "confidence" = Some (VFloat 0.85) ∧
        e !! "type" = Some (VStr ty) ∧
        e !! "vertices" = Some (VInt (Z.of_nat (length approx))) ∧
        ShapeRecognitionService._classify_shape (cv := Toy.cv) approx = Ok (Some ty) ∧
        length approx ∉ [0; 1; 2; 7]%nat.
Proof.
  destruct (shape_detector_classification (cv := Toy.cv))
    as (Htable & _ & _ & Hemit).
  split.
  - apply (Htable Toy.square 0 0 11 11). intros _. split; [reflexivity | lia].
  - pose (d := match ShapeRecognitionService.detect_shapes (cv := Toy.cv)
                       Toy.triangle_image with
               | Ok d => d
               | Raise _ => ∅
               end).
    assert (Hd : ShapeRecognitionService.detect_shapes (cv := Toy.cv)
                   Toy.triangle_image = Ok d) by reflexivity.
    destruct (Hemit Toy.triangle_image d Hd) as (shapes & Hshapes & Hall).
    exists d, shapes. repeat split; try done.
    assert (Hcount : d !! "shapes" =
      Some (VList [ShapeRecognitionService.shape_entry "triangle" (0, 0, 11, 9)
                     [(0, 0); (10, 0); (5, 8)]])) by reflexivity.
    rewrite Hcount in Hshapes. by injection Hshapes as <-.
Defined.


(** A reader that raises: its message comes back in the payload. *)
Lemma extract_text_never_raises_witness :
  OCRService.extract_text (cv := Toy.cv)
      {| OCRService.reader := Some Toy.failing_reader |} Toy.triangle_image =
    Ok {[ "text" := VStr ""; "confidence" := VFloat 0.0;
          "error" := VStr "model not loaded" ]}.
Proof.
  destruct (extract_text_never_raises (cv := Toy.cv) Toy.triangle_image)
    as (_ & _ & Hcaught & _).
  apply (Hcaught Toy.failing_reader (Error "model not loaded")).
  right. exists Toy.triangle_image. split; reflexivity.
Defined.

(** An upload that decodes: the endpoint answers 500 with the message of
    the [KeyError]. *)
Lemma handwriting_endpoint_fails_when_disabled_witness :
  Main.recognize_handwriting (cv := Toy.cv) (codec := Toy.codec)
      Main.ocr_service Toy.upload true =
    Main.HTTPException 500 "Handwriting recognition failed: 'word_count'".
Proof.
  destruct (handwriting_endpoint_fails_when_disabled
              (cv := Toy.cv) (codec := Toy.codec) Toy.upload true)
    as (_ & _ & _ & Hdetail).
  eapply Hdetail; reflexivity.
Defined.

(** Five shapes on an 800 by 600 canvas. *)
Lemma auto_arrange_grid_witness :
  let shapes := [Toy.boxed "circle" 0 0 10 20; Toy.boxed "circle" 0 0 30 40;
                 Toy.boxed "diamond" 0 0 50 60; Toy.boxed "triangle" 0 0 70 80;
                 Toy.boxed "rectangle" 0 0 90 100] in
  ∃ out,
    AIAssistantService.auto_arrange_drawings shapes (800, 600) = Ok out ∧
    (λ placed : dict, placed !! "bbox") <$> out =
      [Some (VList [VInt 133; VInt 150; VInt 10; VInt 20]);
       Some (VList [VInt 399; VInt 150; VInt 30; VInt 40]);
       Some (VList [VInt 665; VInt 150; VInt 50; VInt 60]);
       Some (VList [VInt 133; VInt 450; VInt 70; VInt 80]);
       Some (VList [VInt 399; VInt 450; VInt 90; VInt 100])].
Proof.
  intros shapes.
  destruct auto_arrange_grid as (_ & Hgrid & _ & _).
  assert (Hall : Forall Spec.has_box shapes).
  { repeat constructor; eexists _, _, _; repeat split; reflexivity. }
  destruct (Hgrid shapes 800 600 ltac:(done) Hall) as (_ & _ & out & Hout & _ & _).
  exists out. split; [exact Hout |].
  assert (Hrun : AIAssistantService.auto_arrange_drawings shapes (800, 600) =
    Ok (match AIAssistantService.auto_arrange_drawings shapes (800, 600) with
        | Ok placed => placed
        | Raise _ => []
        end)) by reflexivity.
  rewrite Hrun in Hout. injection Hout as <-. reflexivity.
Defined.

(** Two shapes: the boxes keep 30 by 40 and 70 by 80. *)
Lemma auto_arrange_preserves_size_witness :
  let shapes := [Toy.boxed "circle" 1 2 30 40; Toy.boxed "diamond" 5 6 70 80] in
  let out : list dict :=
    [<["bbox" := VList [VInt 200; VInt 300; VInt 30; VInt 40]]>
       (Toy.boxed "circle" 1 2 30 40);
     <["bbox" := VList [VInt 600; VInt 300; VInt 70; VInt 80]]>
       (Toy.boxed "diamond" 5 6 70 80)] in
  length out = length shapes ∧
  ∀ (i : nat) (shape placed : dict),
    shapes !! i = Some shape →
    out !! i = Some placed →
    (∀ key, key ≠ "bbox" → placed !! key = shape !! key) ∧
    ∃ bbox x y w h,
      shape !! "bbox" = Some bbox ∧
      index bbox 2 = Ok w ∧ index bbox 3 = Ok h ∧
      placed !! "bbox" = Some (VList [VInt x; VInt y; w; h]).
Proof.
  intros shapes out.
  apply (auto_arrange_preserves_size shapes (800, 600) out).
  reflexivity.
Defined.

(* ================================================================== *)
(** * Further properties of the suggestion engine *)
(* ================================================================== *)

Lemma lower_ascii_idempotent (c : ascii) : lower_ascii (lower_ascii c) = lower_ascii c.
Proof.
  destruct c as [[] [] [] [] [] [] [] []]; reflexivity.
Qed.

Lemma lower_idempotent (s : string) : lower (lower s) = lower s.
Proof.
  induction s as [| c s IH]; simpl; [done |].
  by rewrite lower_ascii_idempotent, IH.
Qed.

(** Every keyword count lies between 0 and the size of the list. *)
Lemma keyword_count_range (description_lower ty : string) :
  0 ≤ Spec.keyword_count description_lower ty ≤ 5.
Proof.
  unfold Spec.keyword_count.
  assert (Hlen : ∀ l : list string,
            (length (List.filter (λ keyword, contains keyword description_lower) l)
               ≤ length l)%nat).
  { intros l. induction l as [| k l IH]; simpl; [lia |].
    destruct (contains k description_lower); simpl; lia. }
  assert (Hsize : (length (default [] (odict_get AIAssistantService.suggestions ty))
                     ≤ 5)%nat).
  { unfold AIAssistantService.suggestions. simpl.
    repeat (match goal with
            | |- context [if ?b then _ else _] => destruct b
            end; simpl; try lia). }
  specialize (Hlen (default [] (odict_get AIAssistantService.suggestions ty))).
  lia.
Qed.

Section suggestion_closed_form.
Import AIAssistantService.

(** [suggest_diagram] in closed form: the payload in terms of the
    keyword counts and of the first type with the largest count. *)
Lemma suggest_diagram_closed_form (description : string) :
  let count := Spec.keyword_count (lower description) in
  ∃ (best : string) (pre post : list string),
    suggestions.*1 = pre ++ best :: post ∧
    Forall (λ ty, count ty < count best) pre ∧
    Forall (λ ty, count ty ≤ count best) post ∧
    suggest_diagram description =
      Ok {[ "suggested_diagram" := VStr best;
            "confidence" := VFloat (float_of_Z (count best) / float_of_Z 5)%float;
            "reasoning" :=
              VStr ("Based on keywords: " +:+
                    join ", " (List.filter (λ ty, 0 <? count ty) suggestions.*1));
            "alternatives" :=
              VList (VStr <$>
                List.filter (λ ty, (0 <? count ty) && negb (String.eqb ty best))
                            suggestions.*1) ]}.
Proof.
  intros count.
  unfold suggest_diagram. cbv zeta.
  rewrite fill_scores_counts. fold count.
  set (names := suggestions.*1).
  set (scores := (λ ty, (ty, count ty)) <$> names).
  set (key := λ k, default 0 (odict_get scores k)).
  assert (Hkey : ∀ ty, ty ∈ names → odict_get scores ty = Some (count ty)).
  { intros ty Hty. subst scores count names.
    rewrite <- fill_scores_counts. by apply score_lookup. }
  change (scores.*1) with ("flowchart" :: ["uml"; "mindmap"; "network"; "organizational"]).
  cbn [mbind res_bind].
  destruct (max_by_first key ["uml"; "mindmap"; "network"; "organizational"] [] []
              "flowchart") as (pre & post & Hsplit & Hpre & Hpost);
    [constructor | constructor |].
  set (best := max_by key "flowchart" ["uml"; "mindmap"; "network"; "organizational"])
    in *.
  simpl in Hsplit.
  change ["flowchart"; "uml"; "mindmap"; "network"; "organizational"] with names
    in Hsplit.
  assert (Hin : ∀ ty, ty ∈ pre ++ best :: post → key ty = count ty).
  { intros ty Hty. rewrite <- Hsplit in Hty. unfold key. by rewrite Hkey. }
  assert (Hbest : key best = count best).
  { apply Hin. apply elem_of_app. right. left. }
  exists best, pre, post. split; [done |]. split; [| split].
  - apply Forall_forall. intros ty Hty.
    rewrite Forall_forall in Hpre. specialize (Hpre ty Hty). simpl in Hpre.
    rewrite <- Hbest, <- (Hin ty); [done |]. apply elem_of_app. by left.
  - apply Forall_forall. intros ty Hty.
    rewrite Forall_forall in Hpost. specialize (Hpost ty Hty). simpl in Hpost.
    rewrite <- Hbest, <- (Hin ty); [done |]. apply elem_of_app. right. by right.
  - rewrite Hkey; [| rewrite Hsplit; apply elem_of_app; right; left].
    cbn [mbind res_bind].
    change (match (λ keywords : list string, Z.of_nat (length keywords))
                    <$> suggestions.*2 with
            | [] => Raise (ValueError "max() arg is an empty sequence")
            | n :: ns => Ok (max_int n ns)
            end) with (Ok 5 : res Z).
    cbn [mbind res_bind]. unfold truediv.
    change (5 =? 0) with false. cbn [mbind res_bind].
    subst scores.
    rewrite (filter_keys (λ _ v, 0 <? v) count names).
    rewrite (filter_keys (λ k v, (0 <? v) && negb (String.eqb k best)) count names).
    reflexivity.
Qed.

End suggestion_closed_form.

Section suggestion_extras.
Import AIAssistantService.

Lemma keywords_in_table (ty : string) :
  ty ∈ suggestions.*1 →
  (ty, default [] (odict_get suggestions ty)) ∈ suggestions.
Proof.
  simpl. rewrite !elem_of_cons, elem_of_nil.
  intros [-> | [-> | [-> | [-> | [-> | []]]]]]; unfold suggestions; simpl;
    rewrite !elem_of_cons; tauto.
Qed.

(** X1.  Keyword matching ignores the case of ASCII letters: two texts
    with the same lower-case form get the same diagram suggestion and
    the same icons, and lower-casing is idempotent, so a text and its
    lower-case form are answered alike. *)
Theorem suggestions_ignore_case (a b : string) :
  lower a = lower b →
  suggest_diagram a = suggest_diagram b ∧
  suggest_icons a = suggest_icons b ∧
  lower (lower a) = lower a ∧
  suggest_diagram (lower a) = suggest_diagram a ∧
  suggest_icons (lower a) = suggest_icons a.
Proof.
  intros Hab. unfold suggest_diagram, suggest_icons.
  rewrite Hab, !lower_idempotent. done.
Qed.

(** X2.  When no keyword of the table occurs in the description (so for
    the empty description), [suggest_diagram] answers the first type of
    the table, flowchart, with confidence 0.0, no alternative and an
    empty keyword list in the reasoning. *)
Theorem suggest_diagram_no_match (description : string) :
  (∀ ty keywords keyword,
     (ty, keywords) ∈ suggestions → keyword ∈ keywords →
     contains keyword (lower description) = false) →
  suggest_diagram description =
    Ok {[ "suggested_diagram" := VStr "flowchart";
          "confidence" := VFloat 0.0;
          "reasoning" := VStr "Based on keywords: ";
          "alternatives" := VList [] ]}.
Proof.
  intros Hnone.
  assert (Hzero : ∀ ty, ty ∈ suggestions.*1 →
                        Spec.keyword_count (lower description) ty = 0).
  { intros ty Hty. unfold Spec.keyword_count.
    assert (Hfilter : ∀ keywords, (ty, keywords) ∈ suggestions →
      List.filter (λ keyword, contains keyword (lower description)) keywords = []).
    { intros keywords Hin.
      assert (Hall : ∀ keyword, keyword ∈ keywords →
                contains keyword (lower description) = false)
        by (intros keyword; by apply (Hnone ty keywords)).
      clear Hin. induction keywords as [| k ks IH]; simpl; [done |].
      rewrite (Hall k) by left. apply IH. intros k' Hk'. apply Hall. by right. }
    rewrite Hfilter; [done |]. by apply keywords_in_table. }
  destruct (suggest_diagram_closed_form description)
    as (best & pre & post & Hsplit & Hpre & _ & ->).
  assert (Hbest : best ∈ suggestions.*1).
  { rewrite Hsplit. apply elem_of_app. right. left. }
  assert (Hpre_nil : pre = []).
  { destruct pre as [| ty pre]; [done |].
    apply Forall_cons in Hpre as [Hlt _].
    rewrite (Hzero ty), (Hzero best) in Hlt; [lia | done |].
    rewrite Hsplit. left. }
  subst pre. simpl in Hsplit. injection Hsplit as <- _.
  rewrite (Hzero "flowchart") by (simpl; left).
  assert (H1 : List.filter
                 (λ ty, 0 <? Spec.keyword_count (lower description) ty)
                 suggestions.*1 = []).
  { simpl. rewrite !Hzero; [done | simpl; rewrite !elem_of_cons; tauto ..]. }
  assert (H2 : List.filter
                 (λ ty, (0 <? Spec.keyword_count (lower description) ty)
                        && negb (String.eqb ty "flowchart"))
                 suggestions.*1 = []).
  { simpl. rewrite !Hzero; [done | simpl; rewrite !elem_of_cons; tauto ..]. }
  rewrite H1, H2. reflexivity.
Qed.

End suggestion_extras.

Lemma suggestions_ignore_case_witness :
  AIAssistantService.suggest_diagram "Create A PROCESS Workflow"
    = AIAssistantService.suggest_diagram "create a process workflow" ∧
  AIAssistantService.suggest_icons "Business Plan"
    = AIAssistantService.suggest_icons "business plan".
Proof.
  destruct (suggestions_ignore_case "Create A PROCESS Workflow"
              "create a process workflow" eq_refl) as (H1 & _).
  destruct (suggestions_ignore_case "Business Plan" "business plan" eq_refl)
    as (_ & H2 & _).
  by split.
Defined.

Lemma suggest_diagram_no_match_witness :
  AIAssistantService.suggest_diagram "" =
    Ok {[ "suggested_diagram" := VStr "flowchart";
          "confidence" := VFloat 0.0;
          "reasoning" := VStr "Based on keywords: ";
          "alternatives" := VList [] ]}.
Proof.
  apply suggest_diagram_no_match.
  intros ty keywords keyword Hty Hkw.
  unfold AIAssistantService.suggestions in Hty.
  rewrite !elem_of_cons, elem_of_nil in Hty.
  destruct Hty as [[= -> ->] | [[= -> ->] | [[= -> ->] | [[= -> ->] | [[= -> ->] | []]]]]];
    rewrite !elem_of_cons, elem_of_nil in Hkw;
    destruct Hkw as [-> | [-> | [-> | [-> | [-> | []]]]]]; reflexivity.
Defined.

Lemma NoDup_list_filter {A} (f : A → bool) (l : list A) :
  NoDup l → NoDup (List.filter f l).
Proof.
  induction 1 as [| a l Ha _ IH]; simpl; [constructor |].
  destruct (f a); [| done].
  constructor; [| done].
  intros Hin. apply Ha. apply list_elem_of_In in Hin.
  apply filter_In in Hin as [Hin _]. by apply list_elem_of_In.
Qed.

Section assistant_extras.
Import AIAssistantService.

Lemma first_category_priority (context_lower : string)
    (pre post : odict (list string)) (category : string) (icons : list string) :
  Forall (λ r, contains r.1 context_lower = false) pre →
  contains category context_lower = true →
  first_category context_lower (pre ++ (category, icons) :: post) = Some icons.
Proof.
  induction 1 as [| [c i] pre Hc _ IH]; intros Hcat; simpl.
  - by rewrite Hcat.
  - simpl in Hc. rewrite Hc. by apply IH.
Qed.

Lemma first_category_none (context_lower : string) (table : odict (list string)) :
  Forall (λ r, contains r.1 context_lower = false) table →
  first_category context_lower table = None.
Proof.
  induction 1 as [| [c i] table Hc _ IH]; simpl; [done |].
  simpl in Hc. by rewrite Hc.
Qed.

(** X3.  The payload of [suggest_diagram] is always well formed: the
    suggested type is one of the five types and its keyword count [k],
    between 0 and 5, gives the confidence [k/5]; the alternatives are
    distinct types of the table, never the suggested one, each with a
    positive count that does not exceed [k]; and every type with a
    positive count is the suggestion or an alternative. *)
Theorem suggest_diagram_payload (description : string) :
  let count := Spec.keyword_count (lower description) in
  ∃ (d : dict) (best : string) (alts : list string),
    suggest_diagram description = Ok d ∧
    d !! "suggested_diagram" = Some (VStr best) ∧
    d !! "alternatives" = Some (VList (VStr <$> alts)) ∧
    d !! "confidence" =
      Some (VFloat (float_of_Z (count best) / float_of_Z 5)%float) ∧
    0 ≤ count best ≤ 5 ∧
    best ∈ DiagramDetectionService.diagram_types ∧
    (best ∉ alts) ∧
    NoDup alts ∧
    (∀ a, a ∈ alts →
       a ∈ DiagramDetectionService.diagram_types ∧ 0 < count a ≤ count best) ∧
    (∀ ty, ty ∈ DiagramDetectionService.diagram_types → 0 < count ty →
       ty = best ∨ ty ∈ alts).
Proof.
  intros count.
  destruct (suggest_diagram_closed_form description)
    as (best & pre & post & Hsplit & Hpre & Hpost & Hrun).
  fold count in Hpre, Hpost, Hrun.
  change (suggestions.*1) with DiagramDetectionService.diagram_types in *.
  set (names := DiagramDetectionService.diagram_types) in *.
  set (alts := List.filter (λ ty, (0 <? count ty) && negb (String.eqb ty best)) names)
    in *.
  assert (Halts : ∀ a, a ∈ alts ↔
            a ∈ names ∧ (0 <? count a) && negb (String.eqb a best) = true).
  { intros a. subst alts. rewrite !list_elem_of_In. apply filter_In. }
  assert (Hle : ∀ ty, ty ∈ names → count ty ≤ count best).
  { intros ty Hty. rewrite Hsplit in Hty.
    apply elem_of_app in Hty as [Hty | Hty].
    - rewrite Forall_forall in Hpre. specialize (Hpre ty Hty). simpl in Hpre. lia.
    - apply elem_of_cons in Hty as [-> | Hty]; [lia |].
      rewrite Forall_forall in Hpost. by apply Hpost. }
  eexists _, best, alts. split; [exact Hrun |].
  split; [by simplify_map_eq |]. split; [by simplify_map_eq |].
  split; [by simplify_map_eq |].
  split; [apply keyword_count_range |].
  split; [rewrite Hsplit; apply elem_of_app; right; left |].
  split.
  { intros Hin. apply Halts in Hin as [_ Hin].
    apply andb_true_iff in Hin as [_ Hin]. by rewrite String.eqb_refl in Hin. }
  split.
  { subst alts. apply NoDup_list_filter. subst names.
    apply (bool_decide_unpack _). by vm_compute. }
  split.
  - intros a Ha. apply Halts in Ha as [Hnames Ha].
    apply andb_true_iff in Ha as [Hpos _]. apply Z.ltb_lt in Hpos.
    split; [done |]. split; [done | by apply Hle].
  - intros ty Hty Hpos.
    destruct (String.eqb_spec ty best) as [-> | Hne]; [by left |].
    right. apply Halts. split; [done |].
    apply andb_true_iff. split; [by apply Z.ltb_lt |].
    apply negb_true_iff. by apply String.eqb_neq.
Qed.

(** X4.  [suggest_icons] returns the icons of the first category, in
    table order, whose name occurs in the lower-cased context, and the
    default icons when none does; either way it returns five icons. *)
Theorem suggest_icons_first_match (context : string) :
  length (suggest_icons context) = 5%nat ∧
  (Forall (λ r, contains r.1 (lower context) = false) icon_suggestions →
   suggest_icons context = default_icons) ∧
  (∀ pre post category icons,
     icon_suggestions = pre ++ (category, icons) :: post →
     Forall (λ r, contains r.1 (lower context) = false) pre →
     contains category (lower context) = true →
     suggest_icons context = icons) ∧
  icon_suggestions.*1 = ["business"; "technology"; "design"; "education"; "health"].
Proof.
  split; [| split; [| split]].
  - unfold suggest_icons, icon_suggestions. simpl.
    repeat (match goal with
            | |- context [if ?b then _ else _] => destruct b
            end; try reflexivity).
  - intros Hnone. unfold suggest_icons. by rewrite first_category_none.
  - intros pre post category icons Htable Hpre Hcat.
    unfold suggest_icons. rewrite Htable.
    by rewrite (first_category_priority _ pre post category icons Hpre Hcat).
  - reflexivity.
Qed.

(** X5.  [generate_diagram_description] never raises.  It answers the
    sentence "A <type> diagram containing: <elements joined by ', '>"
    when there is no generator, when the generator raises, when it
    returns an empty list and when its first result has no
    ['generated_text']; otherwise it answers the ['generated_text'] of
    the first result of the generator, which was called on the prompt
    with [max_length] 100 and one sequence. *)
Theorem generate_description_fallback
    (self : t) (diagram_type : string) (elements : list string) :
  let template :=
    VStr ("A " +:+ diagram_type +:+ " diagram containing: " +:+ join ", " elements) in
  let prompt :=
    "Create a " +:+ diagram_type +:+ " diagram with elements: " +:+
    join ", " elements in
  (∃ v, generate_diagram_description self diagram_type elements = Ok v) ∧
  (text_generator self = None →
   generate_diagram_description self diagram_type elements = Ok template) ∧
  (∀ generator, text_generator self = Some generator →
     (∀ e, generator prompt 100 1 = Raise e →
        generate_diagram_description self diagram_type elements = Ok template) ∧
     (generator prompt 100 1 = Ok (VList []) →
        generate_diagram_description self diagram_type elements = Ok template) ∧
     (∀ (first : dict) rest,
        generator prompt 100 1 = Ok (VList (VDict first :: rest)) →
        generate_diagram_description self diagram_type elements =
          Ok (default template (first !! "generated_text")))).
Proof.
  intros template prompt.
  assert (Hcases : ∀ generator, text_generator self = Some generator →
     (∀ e, generator prompt 100 1 = Raise e →
        generate_diagram_description self diagram_type elements = Ok template) ∧
     (generator prompt 100 1 = Ok (VList []) →
        generate_diagram_description self diagram_type elements = Ok template) ∧
     (∀ (first : dict) rest,
        generator prompt 100 1 = Ok (VList (VDict first :: rest)) →
        generate_diagram_description self diagram_type elements =
          Ok (default template (first !! "generated_text")))).
  { intros generator Hgen. unfold generate_diagram_description. rewrite Hgen.
    fold prompt. repeat split.
    - by intros e ->.
    - by intros ->.
    - intros first rest ->. simpl. unfold getitem.
      by destruct (first !! "generated_text"). }
  split; [| split; [| exact Hcases]].
  - unfold generate_diagram_description.
    destruct (text_generator self) as [generator |]; [| by eexists].
    unfold try_except.
    match goal with
    | |- ∃ v, match ?body with _ => _ end = _ => destruct body
    end; by eexists.
  - intros Hnone. unfold generate_diagram_description. by rewrite Hnone.
Qed.

End assistant_extras.

(* ================================================================== *)
(** * Further properties of the auto-arranger *)
(* ================================================================== *)

Section arranger_extras.
Import AIAssistantService.

(** The position of shape [i] in a grid of [cols] columns and [rows]
    rows lies inside a canvas of positive size. *)
Lemma cell_centre_in_canvas (n cols rows W H i : Z) :
  0 < W → 0 < H → 0 < cols → 0 < rows → n ≤ rows * cols → 0 ≤ i < n →
  0 ≤ i mod cols * (W / cols) + W / cols / 2 < W ∧
  0 ≤ i / cols * (H / rows) + H / rows / 2 < H.
Proof.
  intros HW HH Hcols Hrows Hn Hi.
  pose proof (Z.mod_pos_bound i cols Hcols) as Hcol.
  assert (Hrow : 0 ≤ i / cols < rows).
  { split; [apply Z.div_pos; lia | apply Z.div_lt_upper_bound; lia]. }
  assert (Hcw : 0 ≤ W / cols ∧ W / cols * cols ≤ W).
  { split; [apply Z.div_pos; lia |].
    rewrite Z.mul_comm. apply Z.mul_div_le. lia. }
  assert (Hch : 0 ≤ H / rows ∧ H / rows * rows ≤ H).
  { split; [apply Z.div_pos; lia |].
    rewrite Z.mul_comm. apply Z.mul_div_le. lia. }
  assert (Hhalf : ∀ c, 0 ≤ c → 0 ≤ c / 2 ≤ c ∧ (0 < c → c / 2 < c)).
  { intros c Hc. split; [| intros Hpos; apply Z.div_lt; lia].
    split; [apply Z.div_pos; lia |].
    apply Z.div_le_upper_bound; lia. }
  destruct (Hhalf (W / cols) ltac:(lia)) as [Hw1 Hw2].
  destruct (Hhalf (H / rows) ltac:(lia)) as [Hh1 Hh2].
  generalize dependent (W / cols / 2). generalize dependent (H / rows / 2).
  generalize dependent (W / cols). generalize dependent (H / rows).
  generalize dependent (i / cols). generalize dependent (i mod cols).
  intros col Hcol row Hrow ch Hch cw Hcw qh Hqh1 Hqh2 qw Hqw1 Hqw2.
  split.
  - destruct (decide (cw = 0)) as [-> | Hnz]; [lia |].
    specialize (Hqw2 ltac:(lia)). nia.
  - destruct (decide (ch = 0)) as [-> | Hnz]; [lia |].
    specialize (Hqh2 ltac:(lia)). nia.
Qed.

(** Two shapes share a position only when they are the same shape,
    provided a cell is at least one pixel wide and high. *)
Lemma cell_centre_injective (cols cw ch i j : Z) :
  0 < cols → 0 < cw → 0 < ch → 0 ≤ i → 0 ≤ j →
  i mod cols * cw + cw / 2 = j mod cols * cw + cw / 2 →
  i / cols * ch + ch / 2 = j / cols * ch + ch / 2 →
  i = j.
Proof.
  intros Hcols Hcw Hch Hi Hj Hx Hy.
  assert (Hmod : i mod cols = j mod cols) by nia.
  assert (Hdiv : i / cols = j / cols) by nia.
  rewrite (Z.div_mod i cols), (Z.div_mod j cols) by lia.
  by rewrite Hmod, Hdiv.
Qed.

(** What a successful run returns, shape by shape. *)
Lemma auto_arrange_placed (shapes : list dict) (W H : Z) (out : list dict) :
  auto_arrange_drawings shapes (W, H) = Ok out →
  let n := Z.of_nat (length shapes) in
  let cols := Z.sqrt_up n in
  let rows := Qceiling (inject_Z n / inject_Z cols) in
  length out = length shapes ∧
  ∀ (i : nat) (placed : dict), out !! i = Some placed →
    ∃ shape, shapes !! i = Some shape ∧
             Spec.arranged cols (W / cols) (H / rows) (Z.of_nat i) shape placed.
Proof.
  intros Hrun n cols rows.
  destruct (decide (shapes = [])) as [-> | Hne].
  - injection Hrun as <-. split; [done |]. intros i placed Hi. done.
  - rewrite (auto_arrange_unfold shapes W H Hne) in Hrun. cbv zeta in Hrun.
    destruct (arrange_loop_inv _ _ _ _ _ _ _ Hrun) as (tail & -> & Hlen & Htail).
    split; [done |]. intros i placed Hi. simpl in Hi.
    assert (Hlt : (i < length shapes)%nat).
    { rewrite <- Hlen. by apply lookup_lt_Some in Hi. }
    destruct (lookup_lt_is_Some_2 shapes i Hlt) as [shape Hshape].
    destruct (Htail i shape Hshape) as (placed' & Hp' & Harr).
    rewrite Hi in Hp'. injection Hp' as <-.
    exists shape. split; [done |]. by rewrite Z.add_0_l in Harr.
Qed.

(** X6.  On a canvas of positive width and height every arranged
    position lies inside the canvas.  When moreover the canvas is at
    least [cols] wide and [rows] high (so that a cell is at least one
    pixel), no two shapes are placed at the same position. *)
Theorem auto_arrange_positions
    (shapes : list dict) (W H : Z) (out : list dict) :
  0 < W → 0 < H →
  auto_arrange_drawings shapes (W, H) = Ok out →
  let n := Z.of_nat (length shapes) in
  let cols := Z.sqrt_up n in
  let rows := Qceiling (inject_Z n / inject_Z cols) in
  (∀ (i : nat) (placed : dict), out !! i = Some placed →
     ∃ x y w h,
       placed !! "bbox" = Some (VList [VInt x; VInt y; w; h]) ∧
       0 ≤ x < W ∧ 0 ≤ y < H) ∧
  (cols ≤ W → rows ≤ H →
   ∀ (i j : nat) (pi pj : dict) (x y wi hi wj hj : value),
     out !! i = Some pi → out !! j = Some pj →
     pi !! "bbox" = Some (VList [x; y; wi; hi]) →
     pj !! "bbox" = Some (VList [x; y; wj; hj]) →
     i = j).
Proof.
  intros HW HH Hrun n cols rows.
  destruct (auto_arrange_placed shapes W H out Hrun) as [Hlen Hplaced].
  fold n cols rows in Hplaced.
  assert (Hgrid : ∀ i : nat, (i < length out)%nat →
            0 < n ∧ 0 < cols ∧ 0 < rows ∧ n ≤ rows * cols ∧ 0 ≤ Z.of_nat i < n).
  { intros i Hi. assert (Hn : 0 < n) by (subst n; lia).
    destruct (grid_dimensions n Hn) as (H1 & H2 & _ & H3).
    change (0 < cols) in H1. change (0 < rows) in H2.
    change ((rows - 1) * cols < n ≤ rows * cols) in H3.
    repeat split; try lia. }
  split.
  - intros i placed Hi.
    destruct (Hplaced i placed Hi) as (shape & _ & Harr).
    apply arranged_bbox in Harr as (_ & bbox & w & h & _ & _ & _ & Hbox).
    destruct (Hgrid i) as (Hn & Hcols & Hrows & Hcap & Hin);
      [by apply lookup_lt_Some in Hi |].
    eexists _, _, w, h. split; [exact Hbox |].
    by apply (cell_centre_in_canvas n cols rows W H).
  - intros Hwide Hhigh i j pi pj x y wi hi wj hj Hi Hj Hbi Hbj.
    destruct (Hplaced i pi Hi) as (si & _ & Hai).
    destruct (Hplaced j pj Hj) as (sj & _ & Haj).
    apply arranged_bbox in Hai as (_ & ? & ? & ? & _ & _ & _ & Hbi').
    apply arranged_bbox in Haj as (_ & ? & ? & ? & _ & _ & _ & Hbj').
    rewrite Hbi in Hbi'. rewrite Hbj in Hbj'.
    injection Hbi' as -> -> _ _. injection Hbj' as Hx Hy _ _.
    destruct (Hgrid i) as (Hn & Hcols & Hrows & Hcap & Hin);
      [by apply lookup_lt_Some in Hi |].
    apply Nat2Z.inj.
    apply (cell_centre_injective cols (W / cols) (H / rows)); try lia.
    + apply Z.div_str_pos. lia.
    + apply Z.div_str_pos. lia.
Qed.

(** Arranging shapes that are already in place changes nothing. *)
Lemma arrange_loop_fixed (cols cw ch : Z) (tail shapes : list dict) (k : Z)
    (acc : list dict) :
  cols ≠ 0 →
  length tail = length shapes →
  (∀ (j : nat) placed, tail !! j = Some placed →
     ∃ shape, shapes !! j = Some shape ∧
              Spec.arranged cols cw ch (k + Z.of_nat j) shape placed) →
  for_in (enumerate_from k tail) (arrange_step cols cw ch) acc = Ok (acc ++ tail).
Proof.
  intros Hcols. revert shapes k acc.
  induction tail as [| placed tail IH]; intros shapes k acc Hlen Hall;
    cbn [enumerate_from for_in].
  - by rewrite app_nil_r.
  - destruct shapes as [| shape shapes]; [done |].
    destruct (Hall 0%nat placed eq_refl) as (shape' & [= <-] & Harr).
    rewrite Z.add_0_r in Harr.
    destruct Harr as (bbox & w & h & Hb & Hw & Hh & ->).
    assert (Hstep : arrange_step cols cw ch acc
              (k, <["bbox" := VList [VInt (k mod cols * cw + cw / 2);
                                     VInt (k / cols * ch + ch / 2); w; h]]> shape)
            = Ok (acc ++ [<["bbox" := VList [VInt (k mod cols * cw + cw / 2);
                                             VInt (k / cols * ch + ch / 2); w; h]]>
                            shape])).
    { unfold arrange_step, floordiv, pymod, getitem.
      destruct (Z.eqb_spec cols 0) as [| _]; [done |].
      cbn [mbind res_bind]. rewrite lookup_insert_eq.
      cbn [mbind res_bind index]. simpl. by rewrite insert_insert_eq. }
    rewrite Hstep. cbn [mbind res_bind].
    rewrite (IH shapes (k + 1) _).
    + by rewrite <- app_assoc.
    + simpl in Hlen. lia.
    + intros j p Hp. destruct (Hall (S j) p Hp) as (s & Hs & Harr).
      exists s. split; [done |].
      by replace (k + 1 + Z.of_nat j) with (k + Z.of_nat (S j)) by lia.
Qed.

(** X7.  The arranger is idempotent: arranging its own output on the
    same canvas returns that output unchanged. *)
Theorem auto_arrange_idempotent
    (shapes : list dict) (canvas_size : Z * Z) (out : list dict) :
  auto_arrange_drawings shapes canvas_size = Ok out →
  auto_arrange_drawings out canvas_size = Ok out.
Proof.
  destruct canvas_size as [W H]. intros Hrun.
  destruct (auto_arrange_placed shapes W H out Hrun) as [Hlen Hplaced].
  destruct (decide (out = [])) as [-> | Hne]; [done |].
  rewrite (auto_arrange_unfold out W H Hne). cbv zeta. rewrite Hlen.
  assert (Hn : 0 < Z.of_nat (length shapes)).
  { destruct out; [done |]. simpl in Hlen. lia. }
  destruct (grid_dimensions _ Hn) as (Hcols & _).
  apply (arrange_loop_fixed _ _ _ out shapes 0 []); [lia | done |].
  intros j placed Hj. rewrite Z.add_0_l. by apply Hplaced.
Qed.

(** The loop stops at the first shape whose step raises. *)
Lemma arrange_loop_raise (cols cw ch : Z) (good rest : list dict) (bad : dict)
    (k : Z) (acc : list dict) (e : exn) :
  cols ≠ 0 →
  Forall Spec.has_box good →
  (∀ acc' i, arrange_step cols cw ch acc' (i, bad) = Raise e) →
  for_in (enumerate_from k (good ++ bad :: rest)) (arrange_step cols cw ch) acc
    = Raise e.
Proof.
  intros Hcols Hgood Hbad. revert k acc.
  induction Hgood as [| shape good Hbox _ IH]; intros k acc;
    cbn [app enumerate_from for_in].
  - by rewrite Hbad.
  - destruct (arrange_step_ok cols cw ch k acc shape Hcols Hbox)
      as (placed & -> & _).
    cbn [mbind res_bind]. apply IH.
Qed.

(** X8.  A shape without ['bbox'] makes the arranger raise
    [KeyError('bbox')], and a ['bbox'] list with fewer than four entries
    makes it raise [IndexError], whatever comes before (shapes with a
    readable box) and after it: no partial arrangement is returned. *)
Theorem auto_arrange_bad_shape
    (good rest : list dict) (bad : dict) (canvas_size : Z * Z) :
  Forall Spec.has_box good →
  (bad !! "bbox" = None →
   auto_arrange_drawings (good ++ bad :: rest) canvas_size
     = Raise (KeyError "bbox")) ∧
  (∀ entries, bad !! "bbox" = Some (VList entries) →
     (length entries < 4)%nat →
     auto_arrange_drawings (good ++ bad :: rest) canvas_size
       = Raise (IndexError "list index out of range")).
Proof.
  intros Hgood. destruct canvas_size as [W H].
  assert (Hne : good ++ bad :: rest ≠ []) by (by destruct good).
  assert (Hn : 0 < Z.of_nat (length (good ++ bad :: rest))).
  { rewrite length_app. simpl. lia. }
  destruct (grid_dimensions _ Hn) as (Hcols & _).
  rewrite (auto_arrange_unfold _ W H Hne). cbv zeta.
  split.
  - intros Hnone. apply arrange_loop_raise; [lia | done |].
    intros acc' i. unfold arrange_step, floordiv, pymod, getitem.
    destruct (Z.eqb_spec (Z.sqrt_up (Z.of_nat (length (good ++ bad :: rest)))) 0)
      as [| _]; [lia |].
    cbn [mbind res_bind]. by rewrite Hnone.
  - intros entries Hbox Hshort. apply arrange_loop_raise; [lia | done |].
    intros acc' i. unfold arrange_step, floordiv, pymod, getitem.
    destruct (Z.eqb_spec (Z.sqrt_up (Z.of_nat (length (good ++ bad :: rest)))) 0)
      as [| _]; [lia |].
    cbn [mbind res_bind]. rewrite Hbox. cbn [mbind res_bind index].
    destruct entries as [| a [| b [| c [| d entries]]]]; simpl in *;
      try done; lia.
Qed.

End arranger_extras.

(* ================================================================== *)
(** * The auto-arrange endpoint on arbitrary JSON *)
(* ================================================================== *)

Section arrange_any.
Import AIAssistantService.

Lemma arrange_items_dicts (cols cw ch : Z) (l : list dict) (k : Z) (acc : list dict) :
  for_in (enumerate_from k (VDict <$> l)) (arrange_item cols cw ch) acc =
    for_in (enumerate_from k l) (arrange_step cols cw ch) acc.
Proof.
  revert k acc. induction l as [| d l IH]; intros k acc; [done |].
  rewrite fmap_cons. cbn [enumerate_from for_in arrange_item].
  destruct (arrange_step cols cw ch acc (k, d)); cbn [mbind res_bind]; [| done].
  apply IH.
Qed.

(** On a list of dictionaries the untyped function is the typed one. *)
Lemma auto_arrange_any_typed (l : list dict) (canvas_size : Z * Z) :
  auto_arrange_drawings_any (VList (VDict <$> l)) canvas_size =
    auto_arrange_drawings l canvas_size.
Proof.
  destruct canvas_size as [W H].
  destruct l as [| d l]; [done |].
  unfold auto_arrange_drawings_any, auto_arrange_drawings.
  rewrite fmap_cons. cbn [truthy negb len mbind res_bind iterate].
  rewrite <- fmap_cons, length_fmap.
  destruct (Z.sqrt_up (Z.of_nat (length (d :: l))) =? 0); [done |].
  cbn [mbind res_bind].
  destruct (floordiv W _); cbn [mbind res_bind]; [| done].
  destruct (floordiv H _); cbn [mbind res_bind]; [| done].
  apply arrange_items_dicts.
Qed.

End arrange_any.

Section arrange_endpoint.
Context `{cv : OpenCV} `{codec : Main.Codec} `{pil : Main.Pillow} `{json : Main.Json}.
Import AIAssistantService.

(** X9.  The auto-arrange endpoint, by what the [shapes] field parses
    to.  A document that does not parse gives status 500 with the
    parser's message.  Any falsy document -- [null], [false], [0], an
    empty string, list or object -- gives a JSON response with no
    arranged shapes and count 0.  A non-empty list of objects with
    readable boxes gives a JSON response with one arranged shape per
    input and that count.  A list whose first unreadable entry is an
    object without ['bbox'] gives status 500 with detail
    "Auto-arrangement failed: 'bbox'"; a non-zero number gives 500 with
    "object of type 'int' has no len()". *)
Theorem auto_arrange_endpoint (shapes : string) (canvas_width canvas_height : Z) :
  (∀ e, Main.json_loads shapes = Raise e →
     Main.auto_arrange_drawings shapes canvas_width canvas_height =
       Main.HTTPException 500 ("Auto-arrangement failed: " +:+ str_exn e)) ∧
  (∀ v, Main.json_loads shapes = Ok v → truthy v = false →
     Main.auto_arrange_drawings shapes canvas_width canvas_height =
       Main.JSONResponse
         {[ "arranged_shapes" := VList [];
            "canvas_size" := VList [VInt canvas_width; VInt canvas_height];
            "shapes_count" := VInt 0 ]}) ∧
  (∀ l : list dict,
     Main.json_loads shapes = Ok (VList (VDict <$> l)) → l ≠ [] →
     Forall Spec.has_box l →
     ∃ out : list dict,
       auto_arrange_drawings l (canvas_width, canvas_height) = Ok out ∧
       length out = length l ∧
       Main.auto_arrange_drawings shapes canvas_width canvas_height =
         Main.JSONResponse
           {[ "arranged_shapes" := VList (VDict <$> out);
              "canvas_size" := VList [VInt canvas_width; VInt canvas_height];
              "shapes_count" := VInt (Z.of_nat (length l)) ]}) ∧
  (∀ (good rest : list dict) (bad : dict),
     Main.json_loads shapes = Ok (VList (VDict <$> (good ++ bad :: rest))) →
     Forall Spec.has_box good → bad !! "bbox" = None →
     Main.auto_arrange_drawings shapes canvas_width canvas_height =
       Main.HTTPException 500 "Auto-arrangement failed: 'bbox'") ∧
  (∀ z, Main.json_loads shapes = Ok (VInt z) → z ≠ 0 →
     Main.auto_arrange_drawings shapes canvas_width canvas_height =
       Main.HTTPException 500
         "Auto-arrangement failed: object of type 'int' has no len()").
Proof.
  unfold Main.auto_arrange_drawings.
  split; [| split; [| split; [| split]]].
  - by intros e ->.
  - intros v -> Hfalsy. cbn [mbind res_bind].
    unfold auto_arrange_drawings_any. by rewrite Hfalsy.
  - intros l -> Hne Hall. cbn [mbind res_bind].
    rewrite auto_arrange_any_typed.
    assert (Hn : 0 < Z.of_nat (length l)) by (destruct l; [done | simpl; lia]).
    destruct (grid_dimensions _ Hn) as (Hcols & _).
    rewrite (auto_arrange_unfold l canvas_width canvas_height Hne). cbv zeta.
    destruct (arrange_loop_ok (Z.sqrt_up (Z.of_nat (length l)))
                (canvas_width / Z.sqrt_up (Z.of_nat (length l)))
                (canvas_height /
                   Qceiling (inject_Z (Z.of_nat (length l)) /
                             inject_Z (Z.sqrt_up (Z.of_nat (length l)))))
                l 0 [] ltac:(lia) Hall) as (out & Hout).
    unfold enumerate. rewrite Hout.
    destruct (arrange_loop_inv _ _ _ _ _ _ _ Hout) as (tail & -> & Hlen & _).
    exists tail. cbn [mbind res_bind]. simpl. by rewrite Hlen.
  - intros good rest bad -> Hgood Hbad. cbn [mbind res_bind].
    rewrite auto_arrange_any_typed.
    assert (Hne : good ++ bad :: rest ≠ []) by (by destruct good).
    assert (Hn : 0 < Z.of_nat (length (good ++ bad :: rest))).
    { rewrite length_app. simpl. lia. }
    destruct (grid_dimensions _ Hn) as (Hcols & _).
    rewrite (auto_arrange_unfold _ canvas_width canvas_height Hne). cbv zeta.
    unfold enumerate.
    rewrite (arrange_loop_raise _ _ _ good rest bad 0 [] (KeyError "bbox"));
      [done | lia | done |].
    intros acc' i. unfold arrange_step, floordiv, pymod, getitem.
    destruct (Z.eqb_spec (Z.sqrt_up (Z.of_nat (length (good ++ bad :: rest)))) 0)
      as [| _]; [lia |].
    cbn [mbind res_bind]. by rewrite Hbad.
  - intros z -> Hz. cbn [mbind res_bind].
    unfold auto_arrange_drawings_any. cbn [truthy].
    destruct (Z.eqb_spec z 0) as [| _]; [done |]. reflexivity.
Qed.

End arrange_endpoint.

(* ================================================================== *)
(** * Further properties of the shape detector and cleaner *)
(* ================================================================== *)

Section shape_extras.
Context `{cv : OpenCV}.
Import ShapeRecognitionService.

Lemma detect_loop_entries (contours : list contour) (acc out : list value) :
  for_in contours detect_step acc = Ok out →
  ∃ tail,
    out = acc ++ tail ∧
    (length tail ≤ length contours)%nat ∧
    Forall (λ s, ∃ ty x y w h (approx : contour),
                   s = VDict (entry_dict ty x y w h (Z.of_nat (length approx))) ∧
                   _classify_shape approx = Ok (Some ty)) tail.
Proof.
  revert acc. induction contours as [| c contours IH]; intros acc;
    cbn [for_in].
  - intros [= <-]. exists []. by rewrite app_nil_r.
  - destruct (detect_step acc c) as [acc1 |] eqn:Hstep; cbn [mbind res_bind];
      [| done].
    intros Hloop. destruct (IH _ Hloop) as (tail & -> & Hlen & Hall).
    destruct (detect_step_emits _ _ _ Hstep)
      as [-> | (ty & [[[x y] w] h] & approx & -> & Hc)].
    + exists tail. split; [done |]. split; [simpl; lia | done].
    + exists (shape_entry ty (x, y, w, h) approx :: tail).
      split; [by rewrite <- app_assoc |]. split; [simpl; lia |].
      constructor; [| done]. by exists ty, x, y, w, h, approx.
Qed.

Lemma shape_label_names (n : nat) (band : bool) (ty : string) :
  Spec.shape_label n band = Some ty →
  ty ∈ ["triangle"; "diamond"; "rectangle"; "pentagon"; "hexagon"; "octagon";
        "circle"] ∧
  ty ≠ "line" ∧ ty ≠ "arrow" ∧
  (n ∈ [5; 6; 8]%nat → ty ∉ shape_names).
Proof.
  destruct n as [| [| [| [| [| [| [| [| [| n]]]]]]]]]; simpl;
    try destruct band; intros [= <-];
    (split; [rewrite !elem_of_cons; tauto |]);
    (split; [done |]); (split; [done |]);
    intros Hv;
    first [ exfalso; rewrite !elem_of_cons, elem_of_nil in Hv; lia
          | unfold shape_names; rewrite !not_elem_of_cons;
            repeat split; try done; apply not_elem_of_nil ].
Qed.

(** X10.  Every label [_classify_shape] produces is one of triangle,
    diamond, rectangle, pentagon, hexagon, octagon, circle.  The names
    line and arrow of [shape_names] are never produced, and the labels
    given to 5, 6 and 8 vertices are not in [shape_names]. *)
Theorem classify_shape_labels (approx : contour) (ty : string) :
  _classify_shape approx = Ok (Some ty) →
  ty ∈ ["triangle"; "diamond"; "rectangle"; "pentagon"; "hexagon"; "octagon";
        "circle"] ∧
  ty ≠ "line" ∧ ty ≠ "arrow" ∧
  (length approx ∈ [5; 6; 8]%nat → ty ∉ shape_names).
Proof.
  intros H.
  destruct (decide (length approx = 4%nat)) as [H4 | H4].
  - rewrite H4. revert H. unfold _classify_shape. rewrite H4. simpl.
    destruct (boundingRect approx) as [[[[x y] w] h] |]; simpl; [| done].
    destruct (truediv _ _); simpl; [| done].
    destruct (_ && _); intros [= <-].
    + by apply (shape_label_names 4 true).
    + by apply (shape_label_names 4 false).
  - rewrite (classify_shape_not_4 approx false H4) in H.
    injection H as H. by apply (shape_label_names _ false).
Qed.

(** X11.  The payload of [detect_shapes] is consistent: it has exactly
    the keys shapes_detected, shapes and total_contours; shapes_detected
    is the length of shapes, which never exceeds total_contours; and
    every shape is a dictionary with exactly the keys type, confidence,
    bbox and vertices, whose bbox is a list of four integers. *)
Theorem detect_shapes_payload (image : ndarray) (d : dict) :
  detect_shapes image = Ok d →
  ∃ (shapes : list value) (total : nat),
    dom d = {[ "shapes_detected"; "shapes"; "total_contours" ]} ∧
    d !! "shapes" = Some (VList shapes) ∧
    d !! "shapes_detected" = Some (VInt (Z.of_nat (length shapes))) ∧
    d !! "total_contours" = Some (VInt (Z.of_nat total)) ∧
    (length shapes ≤ total)%nat ∧
    ∀ s, s ∈ shapes →
      ∃ (e : dict) (ty : string) (x y w h : Z),
        s = VDict e ∧
        dom e = {[ "type"; "confidence"; "bbox"; "vertices" ]} ∧
        e !! "type" = Some (VStr ty) ∧
        e !! "bbox" = Some (VList [VInt x; VInt y; VInt w; VInt h]).
Proof.
  unfold detect_shapes.
  destruct (cvtColor image COLOR_RGB2GRAY) as [gray |]; simpl; [| done].
  destruct (GaussianBlur gray (5, 5) 0) as [blurred |]; simpl; [| done].
  destruct (Canny blurred 50 150) as [edges |]; simpl; [| done].
  destruct (findContours edges _ _) as [contours |]; simpl; [| done].
  destruct (for_in contours detect_step []) as [shapes |] eqn:Hloop;
    simpl; [| done].
  intros [= <-].
  destruct (detect_loop_entries _ _ _ Hloop) as (tail & -> & Hlen & Hall).
  exists tail, (length contours). simpl.
  split; [rewrite !dom_insert_L, dom_singleton_L; set_solver |].
  repeat split; try done.
  intros s Hs. rewrite Forall_forall in Hall.
  destruct (Hall s Hs) as (ty & x & y & w & h & approx & -> & _).
  exists (entry_dict ty x y w h (Z.of_nat (length approx))), ty, x, y, w, h.
  split; [done |].
  split; [unfold entry_dict; rewrite !dom_insert_L, dom_singleton_L; set_solver |].
  by split.
Qed.

End shape_extras.

Section cleaner_extras.
Context `{cv : OpenCV}.
Import ShapeRecognitionService.

Lemma clean_step_ok_fields (l : Heap.loc) (shape : dict) (σ σ' : Heap.heap) :
  clean_step l shape σ = (Ok (), σ') → has_fields shape.
Proof.
  unfold clean_step, Heap.bind, Heap.lift, getitem, has_fields.
  destruct (shape !! "bbox") as [bbox |]; [| done].
  destruct (unpack4 bbox) as [[[[x y] w] h] |] eqn:Hq; [| done].
  destruct (shape !! "type") as [ty |]; [| done].
  intros _. by exists bbox, (x, y, w, h), ty.
Qed.

Lemma clean_step_not_drawn (l : Heap.loc) (shape : dict) :
  has_fields shape → is_drawn shape = false →
  clean_step l shape = Heap.ret ().
Proof.
  intros (bbox & [[[x y] w] h] & ty & Hb & Hq & Ht) Hdrawn.
  unfold is_drawn in Hdrawn. rewrite Ht in Hdrawn.
  apply orb_false_iff in Hdrawn as [Hdrawn H3].
  apply orb_false_iff in Hdrawn as [H1 H2].
  unfold clean_step, getitem. rewrite Hb, Ht.
  unfold Heap.bind, Heap.lift. rewrite Hq. cbn.
  by rewrite H1, H2, H3.
Qed.

Lemma for_each_ok_all {A} (l : list A) (body : A → Heap.M ()) (σ σ' : Heap.heap) :
  Heap.for_each l body σ = (Ok (), σ') →
  Forall (λ a, ∃ σ1 σ2, body a σ1 = (Ok (), σ2)) l.
Proof.
  revert σ. induction l as [| a l IH]; intros σ; simpl; [by constructor |].
  unfold Heap.bind.
  destruct (body a σ) as [[[] | e] σ1] eqn:Hbody; [| done].
  intros Hrest. constructor; [by eauto | by eapply IH].
Qed.

(** X12.  [clean_shapes] can only succeed when every shape of the list,
    drawn or not, has a ['type'] and a ['bbox'] that unpacks into four
    values: a diamond without a box makes the whole call raise. *)
Theorem clean_shapes_needs_fields (image out : Heap.loc)
    (detected_shapes : list dict) (σ σ' : Heap.heap) :
  clean_shapes image detected_shapes σ = (Ok out, σ') →
  Forall has_fields detected_shapes.
Proof.
  unfold clean_shapes, Heap.bind, Heap.copy.
  destruct (σ !! image) as [img |]; [| done].
  destruct (Heap.for_each detected_shapes _ _) as [[[] | e] σ1] eqn:Hloop; [| done].
  intros _. apply for_each_ok_all in Hloop.
  eapply Forall_impl; [exact Hloop |].
  intros shape (σa & σb & Hstep). by eapply clean_step_ok_fields.
Qed.

(** X13.  Shapes that are neither rectangles, circles nor triangles do
    not influence the result: provided they carry their fields,
    removing them from the list gives the same outcome and the same
    store. *)
Theorem clean_shapes_ignores_undrawn (image : Heap.loc)
    (detected_shapes : list dict) (σ : Heap.heap) :
  Forall (λ shape, is_drawn shape = false → has_fields shape) detected_shapes →
  clean_shapes image detected_shapes σ =
    clean_shapes image (List.filter is_drawn detected_shapes) σ.
Proof.
  intros Hall.
  assert (Hloop : ∀ l σ0,
    Heap.for_each detected_shapes (clean_step l) σ0 =
      Heap.for_each (List.filter is_drawn detected_shapes) (clean_step l) σ0).
  { intros l. induction Hall as [| shape shapes Hshape _ IH]; intros σ0;
      simpl; [done |].
    destruct (is_drawn shape) eqn:Hd; simpl.
    - unfold Heap.bind. destruct (clean_step l shape σ0) as [[[] | e] σ1];
        [apply IH | done].
    - rewrite (clean_step_not_drawn l shape (Hshape eq_refl) Hd).
      unfold Heap.bind, Heap.ret. apply IH. }
  unfold clean_shapes, Heap.bind, Heap.copy.
  destruct (σ !! image) as [img |]; [| done].
  by rewrite Hloop.
Qed.

(** The entries [detect_shapes] builds are drawn without a complaint
    about their fields. *)
Lemma clean_step_entry (l : Heap.loc) (ty : string) (x y w h v : Z) :
  (∃ f, clean_step l (entry_dict ty x y w h v) = Heap.update l f ∧
        (f = (λ img, rectangle img (x, y) (x + w, y + h) (0, 255, 0) 2) ∨
         f = (λ img, circle img (x + w / 2, y + h / 2) (Z.min w h / 2)
                       (0, 255, 0) 2) ∨
         f = (λ img, polylines img [[(x, y + h); (x + w / 2, y); (x + w, y + h)]]
                       true (0, 255, 0) 2))) ∨
  clean_step l (entry_dict ty x y w h v) = Heap.ret ().
Proof.
  destruct (clean_step_overlay l (entry_dict ty x y w h v) x y w h ty)
    as (Hr & Hc & Ht & Hn); [done | done |].
  destruct (decide (ty = "rectangle")) as [-> | H1];
    [left; eexists; split; [by apply Hr | by left] |].
  destruct (decide (ty = "circle")) as [-> | H2];
    [left; eexists; split; [by apply Hc | right; by left] |].
  destruct (decide (ty = "triangle")) as [-> | H3];
    [left; eexists; split; [by apply Ht | right; by right] |].
  right. apply Hn. rewrite !not_elem_of_cons. repeat split; try done.
  apply not_elem_of_nil.
Qed.

(** X14.  The detector and the cleaner fit together: the shapes of a
    [detect_shapes] payload are all dictionaries, and when the three
    drawing routines do not raise, [clean_shapes] on them returns a
    fresh array for every allocated input. *)
Theorem detected_shapes_are_cleanable :
  (∀ img p q c t, ∃ img', rectangle img p q c t = Ok img') →
  (∀ img p r c t, ∃ img', circle img p r c t = Ok img') →
  (∀ img ps closed c t, ∃ img', polylines img ps closed c t = Ok img') →
  ∀ (image : ndarray) (d : dict) (shapes : list value),
    detect_shapes image = Ok d →
    d !! "shapes" = Some (VList shapes) →
    ∃ detected : list dict,
      mapM as_dict shapes = Ok detected ∧
      length detected = length shapes ∧
      ∀ (σ : Heap.heap) (l : Heap.loc) (img : ndarray),
        σ !! l = Some img →
        ∃ σ', clean_shapes l detected σ = (Ok (fresh (dom σ)), σ').
Proof.
  intros Hrect Hcirc Hpoly image d shapes.
  unfold detect_shapes.
  destruct (cvtColor image COLOR_RGB2GRAY) as [gray |]; simpl; [| done].
  destruct (GaussianBlur gray (5, 5) 0) as [blurred |]; simpl; [| done].
  destruct (Canny blurred 50 150) as [edges |]; simpl; [| done].
  destruct (findContours edges _ _) as [contours |]; simpl; [| done].
  destruct (for_in contours detect_step []) as [out |] eqn:Hloop;
    simpl; [| done].
  intros [= <-]. rewrite lookup_insert_ne, lookup_insert_eq by done.
  intros [= <-].
  destruct (detect_loop_entries _ _ _ Hloop) as (tail & -> & _ & Hall).
  simpl. clear Hloop.
  assert (Hdicts : ∃ detected : list dict,
            mapM as_dict tail = Ok detected ∧ length detected = length tail ∧
            Forall (λ e, ∃ ty x y w h v, e = entry_dict ty x y w h v) detected).
  { induction Hall as [| s tail (ty & x & y & w & h & approx & -> & _) _ IH].
    - by exists [].
    - destruct IH as (detected & Hmap & Hlen & Hentries).
      exists (entry_dict ty x y w h (Z.of_nat (length approx)) :: detected).
      cbn [mapM as_dict mbind res_bind]. rewrite Hmap. cbn [mbind res_bind mret res_ret].
      split; [done |]. split; [simpl; by rewrite Hlen |].
      constructor; [by eauto 10 | done]. }
  destruct Hdicts as (detected & Hmap & Hlen & Hentries).
  exists detected. split; [done |]. split; [done |].
  intros σ l img Himg.
  rewrite (clean_shapes_unfold σ l img detected Himg). cbv zeta.
  set (out := fresh (dom σ)).
  assert (Hrun : ∀ σ0, is_Some (σ0 !! out) →
            ∃ σ1, Heap.for_each detected (clean_step out) σ0 = (Ok (), σ1)).
  { clear Hmap Hlen. induction Hentries as [| e detected
      (ty & x & y & w & h & v & ->) _ IH]; intros σ0 Hout; simpl.
    - by eexists.
    - unfold Heap.bind.
      assert (Hstep : ∃ σ1, clean_step out (entry_dict ty x y w h v) σ0 = (Ok (), σ1)
                            ∧ is_Some (σ1 !! out)).
      { destruct (clean_step_entry out ty x y w h v)
          as [(f & -> & Hf) | ->]; [| by eexists].
        unfold Heap.update. destruct Hout as [a ->].
        assert (Hok : ∃ a', f a = Ok a').
        { destruct Hf as [-> | [-> | ->]]; [apply Hrect | apply Hcirc | apply Hpoly]. }
        destruct Hok as [a' ->]. eexists. split; [done |].
        by rewrite lookup_insert_eq. }
      destruct Hstep as (σ1 & -> & Hout1). by apply IH. }
  destruct (Hrun (<[out := img]> σ)) as [σ1 ->]; [by rewrite lookup_insert_eq |].
  by eexists.
Qed.

End cleaner_extras.

(* ================================================================== *)
(** * Further properties of the diagram detector *)
(* ================================================================== *)

Lemma all_from_spec (f : Z → bool) (fuel : nat) (k i : Z) :
  all_from f k fuel = true → k ≤ i < k + Z.of_nat fuel → f i = true.
Proof.
  revert k. induction fuel as [| fuel IH]; intros k Hall Hi; [lia |].
  cbn [all_from] in Hall. destruct (f k) eqn:Hk; [| done].
  destruct (decide (i = k)) as [-> | Hne]; [done |].
  apply (IH (k + 1)); [done | lia].
Qed.

(** The two scores against the thresholds of the classifier, checked for
    every count up to 1000000: a score [min(n / 100.0, 1.0)] exceeds
    0.8, 0.5, 0.4 exactly from 81, 51, 41 on; a score
    [min(n / 20.0, 1.0)] exceeds 0.7 exactly from 15 on. *)
Lemma score_thresholds_table :
  all_from thresholds_agree 0 (Z.to_nat 1000001) = true.
Proof. by vm_compute. Qed.

Lemma score_thresholds (n : Z) :
  0 ≤ n ≤ 1000000 →
  let s := min_float (float_of_Z n / 100.0) 1.0 in
  let c := min_float (float_of_Z n / 20.0) 1.0 in
  (0.8 <? s)%float = (81 <=? n) ∧
  (0.5 <? s)%float = (51 <=? n) ∧
  (0.4 <? s)%float = (41 <=? n) ∧
  (0.7 <? c)%float = (15 <=? n).
Proof.
  intros Hn s c.
  pose proof (all_from_spec _ _ 0 n score_thresholds_table ltac:(lia)) as Htable.
  unfold thresholds_agree in Htable. cbv zeta in Htable. fold s c in Htable.
  rewrite !andb_true_iff in Htable.
  destruct Htable as [[[H1 H2] H3] H4].
  apply Bool.eqb_prop in H1, H2, H3, H4. done.
Qed.

Section diagram_extras.
Context `{cv : OpenCV}.
Import DiagramDetectionService.

(** The loop of [_analyze_connections] keeps the contours whose area
    exceeds 100. *)
Lemma node_loop (contours : list contour) (areas : list float) (acc : list contour) :
  Forall2 (λ c a, contourArea c = Ok a) contours areas →
  ∃ nodes,
    for_in contours
      (λ acc c, area ← contourArea c;
                Ok (if (100 <? area)%float then acc ++ [c] else acc)) acc
      = Ok (acc ++ nodes) ∧
    length nodes = length (List.filter (λ a, (100 <? a)%float) areas).
Proof.
  intros Hall. revert acc.
  induction Hall as [| c a contours areas Ha _ IH]; intros acc; cbn [for_in].
  - exists []. by rewrite app_nil_r.
  - rewrite Ha. cbn [mbind res_bind List.filter].
    destruct (100 <? a)%float.
    + destruct (IH (acc ++ [c])) as (nodes & -> & Hlen).
      exists (c :: nodes). split; [by rewrite <- app_assoc |].
      simpl. by rewrite Hlen.
    + apply IH.
Qed.

(** X15.  The decision of [detect_diagram_type] in raw counts.  With
    [lines] the number of Hough lines (0 when the transform returns
    [None]) and [nodes] the number of external contours whose area
    exceeds 100, both at most 1000000: the answer is flowchart when
    there are at least 15 nodes and at least 51 lines; otherwise network
    when there are at least 81 lines; otherwise organizational. *)
Theorem detect_diagram_type_by_counts
    (image gray edges binary : ndarray) (lines_found : option (list (float * float)))
    (retval : float) (contours : list contour) (areas : list float) :
  cvtColor image COLOR_RGB2GRAY = Ok gray →
  Canny gray 50 150 = Ok edges →
  HoughLines edges 1 (3.141592653589793 / 180)%float 100 = Ok lines_found →
  threshold gray 127 255 THRESH_BINARY = Ok (retval, binary) →
  findContours binary RETR_EXTERNAL CHAIN_APPROX_SIMPLE = Ok contours →
  Forall2 (λ c a, contourArea c = Ok a) contours areas →
  let lines := Z.of_nat (length (default [] lines_found)) in
  let nodes := Z.of_nat (length (List.filter (λ a, (100 <? a)%float) areas)) in
  lines ≤ 1000000 → nodes ≤ 1000000 →
  ∃ d : dict,
    detect_diagram_type image = Ok d ∧
    d !! "diagram_type" =
      Some (VStr (if (15 <=? nodes) && (51 <=? lines) then "flowchart"
                  else if 81 <=? lines then "network"
                  else "organizational")).
Proof.
  intros Hgray Hedges Hlines Hthr Hcont Hareas lines nodes Hl Hn.
  unfold detect_diagram_type. rewrite Hgray. cbn [mbind res_bind].
  unfold _analyze_structure. rewrite Hedges. cbn [mbind res_bind].
  rewrite Hlines. cbn [mbind res_bind].
  unfold _analyze_connections. rewrite Hthr. cbn [mbind res_bind].
  rewrite Hcont. cbn [mbind res_bind].
  destruct (node_loop contours areas [] Hareas) as (found & Hloop & Hfound).
  assert (Hstructure : ∃ s,
    match lines_found with
    | Some lines0 =>
        Ok (min_float (float_of_Z (Z.of_nat (length lines0)) / 100.0) 1.0)%float
    | None => Ok 0.0%float
    end = Ok s ∧
    (0.8 <? s)%float = (81 <=? lines) ∧ (0.5 <? s)%float = (51 <=? lines)).
  { subst lines. destruct lines_found as [lines0 |]; simpl in *.
    - eexists. split; [done |].
      destruct (score_thresholds (Z.of_nat (length lines0)) ltac:(lia))
        as (H1 & H2 & _). by split.
    - exists 0.0%float. by repeat split. }
  destruct Hstructure as (s & -> & Hs8 & Hs5).
  cbn [mbind res_bind].
  rewrite Hloop. cbn [mbind res_bind app]. rewrite Hfound. fold nodes.
  destruct (score_thresholds nodes ltac:(lia)) as (_ & _ & _ & Hc7).
  cbv zeta in Hc7.
  eexists. split; [reflexivity |].
  rewrite lookup_insert_eq. f_equal. f_equal.
  unfold _analyze_text_density. rewrite classify_pinned.
  by rewrite Hc7, Hs5, Hs8.
Qed.

(** X16.  Whatever [detect_diagram_type] returns has exactly the keys
    diagram_type, confidence, structure_score, connection_score and
    text_density; the confidence is 0.78 and the text density 0.3 for
    every image; and the type is the classifier's answer for the two
    reported scores, one of flowchart, network and organizational. *)
Theorem detect_diagram_type_payload (image : ndarray) (d : dict) :
  detect_diagram_type image = Ok d →
  dom d = {[ "diagram_type"; "confidence"; "structure_score";
             "connection_score"; "text_density" ]} ∧
  d !! "confidence" = Some (VFloat 0.78) ∧
  d !! "text_density" = Some (VFloat 0.3) ∧
  ∃ s c : float,
    d !! "structure_score" = Some (VFloat s) ∧
    d !! "connection_score" = Some (VFloat c) ∧
    d !! "diagram_type" = Some (VStr (_classify_diagram s c 0.3)) ∧
    _classify_diagram s c 0.3 ∈ ["flowchart"; "network"; "organizational"].
Proof.
  unfold detect_diagram_type.
  destruct (cvtColor image COLOR_RGB2GRAY) as [gray |]; simpl; [| done].
  destruct (_analyze_structure gray) as [s |]; simpl; [| done].
  destruct (_analyze_connections gray) as [c |]; simpl; [| done].
  intros [= <-].
  split; [rewrite !dom_insert_L, dom_singleton_L; set_solver |].
  split; [done |]. split; [done |].
  exists s, c. repeat split; try done.
  rewrite classify_pinned.
  destruct ((0.7 <? c)%float && (0.5 <? s)%float);
    [| destruct (0.8 <? s)%float]; set_solver.
Qed.

End diagram_extras.

(* ================================================================== *)
(** * Further properties of the text extractor and its endpoint *)
(* ================================================================== *)

Section ocr_extras.
Context `{cv : OpenCV} `{codec : Main.Codec}.
Import OCRService.

(** The payload of the [try] block once the reader has answered, with
    the mean written out. *)
Lemma extract_text_mean (rd : Reader) (image image_rgb : ndarray)
    (results : list detection) :
  (if (length (shape image) =? 3)%nat
   then cvtColor image COLOR_BGR2RGB else Ok image) = Ok image_rgb →
  readtext rd image_rgb = Ok results →
  extract_text {| reader := Some rd |} image =
    Ok {[ "text" := VStr (join " " ((λ item : detection, item.1.2) <$> results));
          "confidence" :=
            VFloat (match results with
                    | [] => 0.0
                    | _ :: _ =>
                        foldl (λ t (item : detection), t + item.2) 0.0 results
                          / float_of_Z (Z.of_nat (length results))
                    end)%float;
          "words" := VList (VDict <$> (word_entry <$> results));
          "word_count" := VInt (Z.of_nat (length results)) ]}.
Proof.
  intros Hrgb Hread. unfold extract_text. simpl. rewrite Hrgb. simpl.
  rewrite Hread. simpl. rewrite extract_loop. simpl.
  destruct results as [| r results]; [reflexivity |].
  unfold truediv.
  destruct (Z.eqb_spec (Z.of_nat (length (r :: results))) 0) as [H0 | _];
    [simpl in H0; lia |].
  cbn [mbind res_bind]. rewrite entry_texts. cbn [mbind res_bind try_except].
  by rewrite length_fmap.
Qed.

(** The two shapes a payload of [extract_text] can have. *)
Lemma extract_text_cases (self : t) (image : ndarray) :
  (∃ msg : string,
     extract_text self image =
       Ok {[ "text" := VStr ""; "confidence" := VFloat 0.0;
             "error" := VStr msg ]}) ∨
  (∃ (rd : Reader) (image_rgb : ndarray) (results : list detection),
     self = {| reader := Some rd |} ∧
     (if (length (shape image) =? 3)%nat
      then cvtColor image COLOR_BGR2RGB else Ok image) = Ok image_rgb ∧
     readtext rd image_rgb = Ok results).
Proof.
  destruct self as [[rd |]]; [| left; eexists; apply extract_text_disabled].
  destruct (if (length (shape image) =? 3)%nat
            then cvtColor image COLOR_BGR2RGB else Ok image)
    as [image_rgb | e] eqn:Hrgb.
  - destruct (readtext rd image_rgb) as [results | e] eqn:Hread.
    + right. by exists rd, image_rgb, results.
    + left. eexists. apply extract_text_caught. right. by exists image_rgb.
  - left. eexists. apply extract_text_caught. by left.
Qed.

(** X17.  When the channel conversion and the reader succeed,
    [extract_text] answers: the texts joined by single spaces, the
    arithmetic mean of the confidences summed from left to right
    starting at 0.0 (0.0 when nothing was found), one entry per
    detection with its text, confidence and box in the order of the
    reader, and their number. *)
Theorem extract_text_success (rd : Reader) (image image_rgb : ndarray)
    (results : list detection) :
  (if (length (shape image) =? 3)%nat
   then cvtColor image COLOR_BGR2RGB else Ok image) = Ok image_rgb →
  readtext rd image_rgb = Ok results →
  ∃ d : dict,
    extract_text {| reader := Some rd |} image = Ok d ∧
    d !! "text" = Some (VStr (join " " ((λ item : detection, item.1.2) <$> results))) ∧
    d !! "confidence" =
      Some (VFloat (match results with
                    | [] => 0.0
                    | _ :: _ =>
                        foldl (λ t (item : detection), t + item.2) 0.0 results
                          / float_of_Z (Z.of_nat (length results))
                    end)%float) ∧
    d !! "word_count" = Some (VInt (Z.of_nat (length results))) ∧
    (∃ words : list value,
       d !! "words" = Some (VList words) ∧
       length words = length results ∧
       ∀ (i : nat) (bbox : value) (text : string) (confidence : float),
         results !! i = Some (bbox, text, confidence) →
         words !! i =
           Some (VDict {[ "text" := VStr text; "confidence" := VFloat confidence;
                          "bbox" := bbox ]})).
Proof.
  intros Hrgb Hread. eexists. split; [by apply (extract_text_mean rd image image_rgb) |].
  split; [by simplify_map_eq |]. split; [by simplify_map_eq |].
  split; [by simplify_map_eq |].
  eexists. split; [by simplify_map_eq |].
  split; [by rewrite !length_fmap |].
  intros i bbox text confidence Hi.
  rewrite !list_lookup_fmap. unfold detection in *. rewrite Hi. reflexivity.
Qed.

(** X18.  Every payload of [extract_text] has one of two shapes: the
    keys text, confidence and error, with empty text and confidence
    0.0; or the keys text, confidence, words and word_count.  So
    ['error'] is present exactly when ['word_count'] is missing, and
    ['text'] and ['confidence'] are always there. *)
Theorem extract_text_payload_shape (self : t) (image : ndarray) (d : dict) :
  extract_text self image = Ok d →
  (dom d = {[ "text"; "confidence"; "error" ]} ∧
   d !! "text" = Some (VStr "") ∧ d !! "confidence" = Some (VFloat 0.0)) ∨
  (dom d = {[ "text"; "confidence"; "words"; "word_count" ]} ∧
   ∃ (text : string) (confidence : float) (words : list value),
     d !! "text" = Some (VStr text) ∧
     d !! "confidence" = Some (VFloat confidence) ∧
     d !! "words" = Some (VList words) ∧
     d !! "word_count" = Some (VInt (Z.of_nat (length words)))).
Proof.
  intros Hrun.
  destruct (extract_text_cases self image)
    as [[msg Hpay] | (rd & image_rgb & results & -> & Hrgb & Hread)].
  - rewrite Hpay in Hrun. injection Hrun as <-. left.
    split; [rewrite !dom_insert_L, dom_singleton_L; set_solver |].
    by split.
  - rewrite (extract_text_mean rd image image_rgb results Hrgb Hread) in Hrun.
    injection Hrun as <-. right.
    split; [rewrite !dom_insert_L, dom_singleton_L; set_solver |].
    eexists _, _, _. split; [by simplify_map_eq |].
    split; [by simplify_map_eq |]. split; [by simplify_map_eq |].
    simplify_map_eq. by rewrite !length_fmap.
Qed.

(** X19.  The handwriting endpoint for any service object.  Whenever
    [extract_text] took an error path (no reader, or an exception inside
    its [try] block) the endpoint answers 500 with the detail
    "Handwriting recognition failed: 'word_count'": the message the
    payload carries under ['error'] is not reported.  When the reader
    answered, the endpoint answers the JSON body built from the
    payload, plus the encoded image when enhancement was asked for. *)
Theorem handwriting_endpoint_outcome
    (ocr_service : t) (image : Main.UploadFile) (enhance_image : bool)
    (image_data : list Byte.byte) (decoded img_array : ndarray) (d : dict) :
  Main.read image = Ok image_data →
  Main.decode_image image_data = Ok decoded →
  (if enhance_image then enhance_handwriting decoded else Ok decoded)
    = Ok img_array →
  extract_text ocr_service img_array = Ok d →
  (is_Some (d !! "error") →
   Main.recognize_handwriting ocr_service image enhance_image =
     Main.HTTPException 500 "Handwriting recognition failed: 'word_count'") ∧
  (d !! "error" = None →
   ∃ text confidence word_count words,
     d !! "text" = Some text ∧ d !! "confidence" = Some confidence ∧
     d !! "word_count" = Some word_count ∧ d !! "words" = Some words ∧
     let result : dict :=
       {[ "extracted_text" := text; "confidence" := confidence;
          "word_count" := word_count; "words" := words;
          "enhanced_image" := VBool enhance_image ]} in
     Main.recognize_handwriting ocr_service image enhance_image =
       if enhance_image
       then match Main.encode_png_b64 img_array with
            | Ok enhanced_b64 =>
                Main.JSONResponse (<["enhanced_image_b64" := VStr enhanced_b64]> result)
            | Raise e =>
                Main.HTTPException 500
                  ("Handwriting recognition failed: " +:+ str_exn e)
            end
       else Main.JSONResponse result).
Proof.
  intros Hread Hdec Henh Hrun.
  unfold Main.recognize_handwriting.
  rewrite Hread. cbn [mbind res_bind]. rewrite Hdec. cbn [mbind res_bind].
  rewrite Henh. cbn [mbind res_bind]. rewrite Hrun. cbn [mbind res_bind].
  destruct (extract_text_cases ocr_service img_array)
    as [[msg Hpay] | (rd & image_rgb & results & -> & Hrgb & Hans)].
  - rewrite Hpay in Hrun. injection Hrun as <-. split; [done |].
    intros Hnone. by simplify_map_eq.
  - rewrite (extract_text_mean rd img_array image_rgb results Hrgb Hans) in Hrun.
    injection Hrun as <-. split.
    + intros [v Hv]. by simplify_map_eq.
    + intros _. eexists _, _, _, _.
      split; [by simplify_map_eq |]. split; [by simplify_map_eq |].
      split; [by simplify_map_eq |]. split; [by simplify_map_eq |].
      cbv zeta. unfold getitem, get. simplify_map_eq. cbn [mbind res_bind].
      destruct enhance_image; [| reflexivity].
      by destruct (Main.encode_png_b64 img_array).
Qed.

End ocr_extras.

(* ================================================================== *)
(** * Properties of the remaining endpoints *)
(* ================================================================== *)

(** A dictionary with an entry is truthy. *)
Lemma truthy_dict (d : dict) (k : string) (v : value) :
  d !! k = Some v → truthy (VDict d) = true.
Proof.
  intros Hk. unfold truthy. apply negb_true_iff, Nat.eqb_neq.
  intros Hsize. apply map_size_empty_iff in Hsize. subst d.
  by rewrite lookup_empty in Hk.
Qed.

Section endpoint_extras.
Context `{cv : OpenCV} `{codec : Main.Codec} `{pil : Main.Pillow}.

(** The payload of [detect_shapes], with its entries. *)
Lemma detect_shapes_answer (image : ndarray) (d : dict) :
  ShapeRecognitionService.detect_shapes image = Ok d →
  ∃ (shapes : list value) (total : nat),
    d = {[ "shapes_detected" := VInt (Z.of_nat (length shapes));
           "shapes" := VList shapes;
           "total_contours" := VInt (Z.of_nat total) ]} ∧
    (length shapes ≤ total)%nat ∧
    Forall (λ s, ∃ ty x y w h v, s = VDict (entry_dict ty x y w h v)) shapes.
Proof.
  unfold ShapeRecognitionService.detect_shapes.
  destruct (cvtColor image COLOR_RGB2GRAY) as [gray |]; simpl; [| done].
  destruct (GaussianBlur gray (5, 5) 0) as [blurred |]; simpl; [| done].
  destruct (Canny blurred 50 150) as [edges |]; simpl; [| done].
  destruct (findContours edges _ _) as [contours |]; simpl; [| done].
  destruct (for_in contours ShapeRecognitionService.detect_step [])
    as [shapes |] eqn:Hloop; simpl; [| done].
  intros [= <-].
  destruct (detect_loop_entries _ _ _ Hloop) as (tail & -> & Hlen & Hall).
  exists tail, (length contours). split; [done |]. split; [done |].
  eapply Forall_impl; [exact Hall |].
  intros s (ty & x & y & w & h & approx & -> & _). by eauto 10.
Qed.

(** The payload of [detect_diagram_type], with its label. *)
Lemma detect_diagram_type_answer (image : ndarray) (d : dict) :
  DiagramDetectionService.detect_diagram_type image = Ok d →
  ∃ (ty : string) (s c : float),
    d = {[ "diagram_type" := VStr ty;
           "confidence" := VFloat 0.78;
           "structure_score" := VFloat s;
           "connection_score" := VFloat c;
           "text_density" := VFloat 0.3 ]} ∧
    ty ∈ ["flowchart"; "network"; "organizational"].
Proof.
  unfold DiagramDetectionService.detect_diagram_type.
  destruct (cvtColor image COLOR_RGB2GRAY) as [gray |]; simpl; [| done].
  destruct (DiagramDetectionService._analyze_structure gray) as [s |]; simpl; [| done].
  destruct (DiagramDetectionService._analyze_connections gray) as [c |]; simpl; [| done].
  intros [= <-]. eexists _, s, c. split; [reflexivity |].
  unfold DiagramDetectionService._analyze_text_density. rewrite classify_pinned.
  destruct ((0.7 <? c)%float && (0.5 <? s)%float);
    [| destruct (0.8 <? s)%float]; set_solver.
Qed.

(** [extract_text] always answers. *)
Lemma extract_text_total (self : OCRService.t) (image : ndarray) :
  ∃ d : dict, OCRService.extract_text self image = Ok d.
Proof.
  destruct self as [[rd |]]; [| eexists; apply extract_text_disabled].
  destruct (if (length (shape image) =? 3)%nat
            then cvtColor image COLOR_BGR2RGB else Ok image)
    as [image_rgb | e] eqn:Hrgb.
  - destruct (OCRService.readtext rd image_rgb) as [results | e] eqn:Hread.
    + destruct (extract_text_answer rd image image_rgb results Hrgb Hread)
        as (avg & -> & _). by eexists.
    + eexists. apply extract_text_caught. right. by exists image_rgb.
  - eexists. apply extract_text_caught. by left.
Qed.

(** X20.  A JSON answer of the shape-recognition endpoint reports the
    shapes of the detector, their number and the number of contours,
    and [cleaned_shapes] is true exactly when cleaning was asked for and
    at least one shape was found; ['cleaned_image'] is present in
    exactly that case. *)
Theorem recognize_shapes_outcome
    (image : Main.UploadFile) (clean_shapes : bool) (r : dict) :
  Main.recognize_shapes image clean_shapes = Main.JSONResponse r →
  ∃ (shapes : list value) (total : nat),
    r !! "shapes" = Some (VList shapes) ∧
    r !! "shapes_detected" = Some (VInt (Z.of_nat (length shapes))) ∧
    r !! "total_contours" = Some (VInt (Z.of_nat total)) ∧
    (length shapes ≤ total)%nat ∧
    r !! "cleaned_shapes" =
      Some (VBool (clean_shapes && bool_decide (shapes ≠ []))) ∧
    (is_Some (r !! "cleaned_image") ↔ clean_shapes = true ∧ shapes ≠ []).
Proof.
  unfold Main.recognize_shapes.
  destruct (Main.read image) as [image_data |]; cbn [mbind res_bind]; [| done].
  destruct (Main.decode_image image_data) as [img |]; cbn [mbind res_bind]; [| done].
  destruct (ShapeRecognitionService.detect_shapes img) as [d |] eqn:Hdet;
    cbn [mbind res_bind]; [| done].
  destruct (detect_shapes_answer img d Hdet) as (shapes & total & -> & Hle & _).
  unfold getitem. simplify_map_eq. cbn [mbind res_bind].
  intros Hrun. exists shapes, total.
  destruct clean_shapes; cbn [andb] in *.
  - destruct shapes as [| s shapes].
    + injection Hrun as <-. simplify_map_eq. repeat split; try done.
      by intros [_ Hne].
    + revert Hrun.
      destruct (mapM as_dict (s :: shapes)) as [detected |];
        cbn [mbind res_bind]; [| done].
      destruct (ShapeRecognitionService.clean_shapes _ _ _) as [[l | e] σ'];
        [| done].
      destruct (σ' !! l) as [cleaned |]; [| done].
      destruct (Main.encode_png_b64 cleaned) as [b64 |];
        cbn [mbind res_bind]; [| done].
      intros [= <-]. simplify_map_eq. repeat split; try done.
  - injection Hrun as <-. simplify_map_eq. repeat split; try done.
    by intros [[=] _].
Qed.

(** X21.  A JSON answer of the diagram-detection endpoint names one of
    flowchart, network and organizational, with confidence 0.78, and
    echoes the cleaning flag.  Without cleaning there is no
    ['cleaned_image'].  With cleaning, the image is the encoding of the
    decoded upload closed with a 2x2 kernel when the type is flowchart,
    and of the decoded upload as it is otherwise: the enhancers for UML
    and mind maps are never run by the endpoint. *)
Theorem detect_diagram_outcome
    (image : Main.UploadFile) (clean_diagram : bool) (r : dict) :
  Main.detect_diagram image clean_diagram = Main.JSONResponse r →
  ∃ (image_data : list Byte.byte) (img : ndarray) (ty : string),
    Main.read image = Ok image_data ∧
    Main.decode_image image_data = Ok img ∧
    r !! "diagram_type" = Some (VStr ty) ∧
    ty ∈ ["flowchart"; "network"; "organizational"] ∧
    r !! "confidence" = Some (VFloat 0.78) ∧
    r !! "cleaned_diagram" = Some (VBool clean_diagram) ∧
    (clean_diagram = false → r !! "cleaned_image" = None) ∧
    (clean_diagram = true →
     ∃ (cleaned : ndarray) (cleaned_b64 : string),
       (if String.eqb ty "flowchart"
        then morphologyEx img MORPH_CLOSE (ones (2, 2)%nat)
        else Ok img) = Ok cleaned ∧
       Main.encode_png_b64 cleaned = Ok cleaned_b64 ∧
       r !! "cleaned_image" = Some (VStr cleaned_b64)).
Proof.
  unfold Main.detect_diagram.
  destruct (Main.read image) as [image_data |]; cbn [mbind res_bind]; [| done].
  destruct (Main.decode_image image_data) as [img |] eqn:Hdec;
    cbn [mbind res_bind]; [| done].
  destruct (DiagramDetectionService.detect_diagram_type img) as [d |] eqn:Hdet;
    cbn [mbind res_bind]; [| done].
  destruct (detect_diagram_type_answer img d Hdet) as (ty & s & c & -> & Hty).
  unfold getitem. simplify_map_eq. cbn [mbind res_bind].
  intros Hrun. exists image_data, img, ty.
  split; [done |]. split; [done |].
  destruct clean_diagram.
  - revert Hrun.
    assert (Hclean : DiagramDetectionService.clean_diagram img ty =
              if String.eqb ty "flowchart"
              then morphologyEx img MORPH_CLOSE (ones (2, 2)%nat)
              else Ok img).
    { rewrite !elem_of_cons, elem_of_nil in Hty.
      by destruct Hty as [-> | [-> | [-> | []]]]. }
    rewrite Hclean.
    destruct (if String.eqb ty "flowchart"
              then morphologyEx img MORPH_CLOSE (ones (2, 2)%nat)
              else Ok img) as [cleaned |]; cbn [mbind res_bind]; [| done].
    destruct (Main.encode_png_b64 cleaned) as [b64 |] eqn:Henc;
      cbn [mbind res_bind]; [| done].
    intros [= <-]. simplify_map_eq. repeat split; try done.
    intros _. by exists cleaned, b64.
  - injection Hrun as <-. simplify_map_eq. repeat split; try done.
Qed.

(** What the assistant suggests for the prompt the combined analysis
    builds from each label the detector can produce. *)
Lemma suggestion_for_detected (ty : string) :
  ty ∈ ["flowchart"; "network"; "organizational"] →
  ∃ suggestion : dict,
    AIAssistantService.suggest_diagram ("Create a " +:+ ty +:+ " diagram")
      = Ok suggestion ∧
    suggestion !! "suggested_diagram" =
      Some (VStr (if String.eqb ty "organizational" then "mindmap" else "flowchart")) ∧
    suggestion !! "confidence" =
      Some (VFloat (if String.eqb ty "organizational" then 0.2 else 0.0)) ∧
    suggestion !! "alternatives" = Some (VList []).
Proof.
  rewrite !elem_of_cons, elem_of_nil.
  intros [-> | [-> | [-> | []]]]; eexists; (split; [by vm_compute |]);
    by vm_compute.
Qed.

(** The last step of the combined analysis when a diagram was
    detected, and when none was. *)
Lemma suggestions_step_present (analysis diagram : dict) (ty : string) :
  analysis !! "diagram" = Some (VDict diagram) →
  diagram !! "diagram_type" = Some (VStr ty) →
  ty ∈ ["flowchart"; "network"; "organizational"] →
  ∃ suggestion : dict,
    (if truthy (get analysis "diagram" VNone)
     then
       diagram ← (d ← getitem analysis "diagram"; as_dict d);
       diagram_type ← getitem diagram "diagram_type";
       suggestion ←
         AIAssistantService.suggest_diagram
           ("Create a " +:+ format_value diagram_type +:+ " diagram");
       Ok (<["suggestions" := VDict suggestion]> analysis)
     else Ok analysis) = Ok (<["suggestions" := VDict suggestion]> analysis) ∧
    AIAssistantService.suggest_diagram ("Create a " +:+ ty +:+ " diagram")
      = Ok suggestion ∧
    suggestion !! "suggested_diagram" =
      Some (VStr (if String.eqb ty "organizational" then "mindmap" else "flowchart")) ∧
    suggestion !! "confidence" =
      Some (VFloat (if String.eqb ty "organizational" then 0.2 else 0.0)).
Proof.
  intros Hdiagram Hty Hlabel.
  destruct (suggestion_for_detected ty Hlabel)
    as (suggestion & Hsuggest & Hbest & Hconf & _).
  exists suggestion. split; [| by repeat split].
  unfold get, getitem. rewrite Hdiagram.
  change (default VNone (Some (VDict diagram))) with (VDict diagram).
  rewrite (truthy_dict diagram "diagram_type" (VStr ty) Hty).
  cbn [mbind res_bind as_dict]. rewrite Hty. cbn [mbind res_bind format_value].
  by rewrite Hsuggest.
Qed.

Lemma suggestions_step_absent (analysis : dict) :
  analysis !! "diagram" = None →
  (if truthy (get analysis "diagram" VNone)
   then
     diagram ← (d ← getitem analysis "diagram"; as_dict d);
     diagram_type ← getitem diagram "diagram_type";
     suggestion ←
       AIAssistantService.suggest_diagram
         ("Create a " +:+ format_value diagram_type +:+ " diagram");
     Ok (<["suggestions" := VDict suggestion]> analysis)
   else Ok analysis) = Ok analysis.
Proof. intros Hnone. unfold get. by rewrite Hnone. Qed.

(** X23.  In a JSON answer of the combined analysis, the keys of
    ['analysis'] follow the three flags, and ['suggestions'] is present
    exactly when diagram detection was included.  The suggestion is
    computed from the sentence "Create a <type> diagram", in which the
    only keyword that can occur is "organization": a detected
    organizational chart is answered by the suggestion mindmap with
    confidence 0.2, a detected flowchart or network by the suggestion
    flowchart with confidence 0.0. *)
Theorem complete_analysis_suggestion
    (ocr_service : OCRService.t) (image : Main.UploadFile)
    (include_ocr include_shape_recognition include_diagram_detection : bool)
    (r : dict) :
  Main.complete_ai_analysis ocr_service image
      include_ocr include_shape_recognition include_diagram_detection
    = Main.JSONResponse r →
  ∃ analysis : dict,
    r !! "analysis" = Some (VDict analysis) ∧
    (is_Some (analysis !! "shapes") ↔ include_shape_recognition = true) ∧
    (is_Some (analysis !! "diagram") ↔ include_diagram_detection = true) ∧
    (is_Some (analysis !! "text") ↔ include_ocr = true) ∧
    (is_Some (analysis !! "suggestions") ↔ include_diagram_detection = true) ∧
    (include_diagram_detection = true →
     ∃ (diagram suggestion : dict) (ty : string),
       analysis !! "diagram" = Some (VDict diagram) ∧
       diagram !! "diagram_type" = Some (VStr ty) ∧
       ty ∈ ["flowchart"; "network"; "organizational"] ∧
       analysis !! "suggestions" = Some (VDict suggestion) ∧
       AIAssistantService.suggest_diagram ("Create a " +:+ ty +:+ " diagram")
         = Ok suggestion ∧
       suggestion !! "suggested_diagram" =
         Some (VStr (if String.eqb ty "organizational"
                     then "mindmap" else "flowchart")) ∧
       suggestion !! "confidence" =
         Some (VFloat (if String.eqb ty "organizational" then 0.2 else 0.0))).
Proof.
  unfold Main.complete_ai_analysis.
  destruct (Main.read image) as [image_data |]; cbn [mbind res_bind]; [| done].
  destruct (Main.decode_image image_data) as [img |]; cbn [mbind res_bind]; [| done].
  destruct include_shape_recognition;
    [destruct (ShapeRecognitionService.detect_shapes img) as [shape_analysis |];
       cbn [mbind res_bind]; [| done] |];
    (destruct include_diagram_detection;
     [destruct (DiagramDetectionService.detect_diagram_type img)
        as [diagram_analysis |] eqn:Hdet; cbn [mbind res_bind]; [| done];
      destruct (detect_diagram_type_answer img diagram_analysis Hdet)
        as (ty & s & c & Hdiagram & Hty);
      assert (Hlabel : diagram_analysis !! "diagram_type" = Some (VStr ty))
        by (by rewrite Hdiagram);
      clear Hdiagram Hdet |]);
    (destruct include_ocr;
     [destruct (extract_text_total ocr_service img) as [ocr_result ->] |]);
    cbn [mbind res_bind].
  all: match goal with
       | |- context [if truthy (get ?a "diagram" VNone) then _ else _] =>
           set (analysis := a)
       end.
  all: first
    [ assert (Hd : analysis !! "diagram" = Some (VDict diagram_analysis))
        by (subst analysis; by simplify_map_eq);
      destruct (suggestions_step_present analysis diagram_analysis ty Hd Hlabel Hty)
        as (suggestion & -> & Hsuggest & Hbest & Hconf)
    | assert (Hd : analysis !! "diagram" = None)
        by (subst analysis; by simplify_map_eq);
      rewrite (suggestions_step_absent analysis Hd) ].
  all: cbn [mbind res_bind]; intros [= <-]; eexists;
    (split; [by rewrite lookup_insert_ne, lookup_singleton_eq |]).
  all: subst analysis;
    repeat (rewrite lookup_insert_eq || (rewrite lookup_insert_ne by done)
            || rewrite lookup_empty).
  all: repeat split; try done; try (by intros [? [=]]); try (by eexists).
  all: intros _; exists diagram_analysis, suggestion, ty;
    repeat (rewrite lookup_insert_eq || (rewrite lookup_insert_ne by done));
    by repeat split.
Qed.

(** X24.  Text extraction never makes the combined analysis fail.
    Whenever the analysis without OCR answers a JSON body, the analysis
    with OCR answers the same body with the payload of [extract_text]
    added under ['text']; for a service without a reader this is the
    payload with the error "OCR service not available". *)
Theorem complete_analysis_tolerates_ocr
    (ocr_service : OCRService.t) (image : Main.UploadFile)
    (include_shape_recognition include_diagram_detection : bool)
    (r analysis : dict) :
  Main.complete_ai_analysis ocr_service image
      false include_shape_recognition include_diagram_detection
    = Main.JSONResponse r →
  r !! "analysis" = Some (VDict analysis) →
  ∃ (image_data : list Byte.byte) (img : ndarray) (ocr_result : dict),
    Main.read image = Ok image_data ∧
    Main.decode_image image_data = Ok img ∧
    OCRService.extract_text ocr_service img = Ok ocr_result ∧
    (OCRService.reader ocr_service = None →
     ocr_result = {[ "text" := VStr ""; "confidence" := VFloat 0.0;
                     "error" := VStr "OCR service not available" ]}) ∧
    Main.complete_ai_analysis ocr_service image
        true include_shape_recognition include_diagram_detection
      = Main.JSONResponse
          (<["analysis" := VDict (<["text" := VDict ocr_result]> analysis)]> r).
Proof.
  unfold Main.complete_ai_analysis.
  destruct (Main.read image) as [image_data |]; cbn [mbind res_bind]; [| done].
  destruct (Main.decode_image image_data) as [img |] eqn:Hdec;
    cbn [mbind res_bind]; [| done].
  destruct (extract_text_total ocr_service img) as [ocr_result Hocr].
  intros Hrun Hanalysis. exists image_data, img, ocr_result.
  split; [done |]. split; [done |]. split; [done |].
  split.
  { intros Hnone. destruct ocr_service as [[rd |]]; [done |].
    rewrite extract_text_disabled in Hocr. by injection Hocr as <-. }
  revert Hrun Hanalysis. rewrite Hocr.
  destruct include_shape_recognition;
    [destruct (ShapeRecognitionService.detect_shapes img) as [shape_analysis |];
       cbn [mbind res_bind]; [| done] |];
    (destruct include_diagram_detection;
     [destruct (DiagramDetectionService.detect_diagram_type img)
        as [diagram_analysis |] eqn:Hdet; cbn [mbind res_bind]; [| done];
      destruct (detect_diagram_type_answer img diagram_analysis Hdet)
        as (ty & s & c & Hdiagram & Hty);
      assert (Hlabel : diagram_analysis !! "diagram_type" = Some (VStr ty))
        by (by rewrite Hdiagram);
      clear Hdiagram Hdet |]);
    cbn [mbind res_bind].
  all: repeat match goal with
       | |- context [if truthy (get ?a "diagram" VNone) then _ else _] =>
           let analysis := fresh "analysis" in
           set (analysis := a);
           first
           [ assert (analysis !! "diagram" = Some (VDict diagram_analysis)) as Hd
               by (subst analysis; by simplify_map_eq);
             destruct (suggestions_step_present analysis diagram_analysis ty
                         Hd Hlabel Hty) as (? & -> & ? & _);
             clear Hd
           | assert (analysis !! "diagram" = None) as Hd
               by (subst analysis; by simplify_map_eq);
             rewrite (suggestions_step_absent analysis Hd); clear Hd ];
           subst analysis
       end.
  all: repeat match goal with
       | H1 : ?t = Ok ?a, H2 : ?t = Ok ?b |- _ =>
           rewrite H1 in H2; injection H2 as <-
       end.
  all: cbn [mbind res_bind]; intros [= <-];
    rewrite lookup_insert_ne, lookup_singleton_eq by done; intros [= <-];
    f_equal; rewrite (insert_commute _ "analysis" "image_info") by done;
    rewrite insert_singleton_eq; do 3 f_equal.
  all: by rewrite ?(insert_commute _ "suggestions" "text") by done.
Qed.

End endpoint_extras.

Section assistant_endpoints.
Import AIAssistantService.

(** X22.  The two suggestion endpoints never answer with an error:
    [suggest_diagram] answers the payload of the service for every
    description, and [suggest_icons] answers five icons together with
    the context exactly as it was sent. *)
Theorem suggestion_endpoints_never_fail (text : string) :
  (∃ d : dict,
     suggest_diagram text = Ok d ∧
     Main.suggest_diagram text = Main.JSONResponse d) ∧
  (∃ icons : list string,
     length icons = 5%nat ∧
     Main.suggest_icons text =
       Main.JSONResponse {[ "suggested_icons" := VList (VStr <$> icons);
                            "context" := VStr text ]}).
Proof.
  split.
  - destruct (suggest_diagram_closed_form text)
      as (best & pre & post & _ & _ & _ & Hrun).
    eexists. split; [exact Hrun |].
    unfold Main.suggest_diagram. by rewrite Hrun.
  - exists (suggest_icons text). split; [| done].
    unfold suggest_icons, icon_suggestions. simpl.
    repeat (match goal with
            | |- context [if ?b then _ else _] => destruct b
            end; try reflexivity).
Qed.

End assistant_endpoints.
